(** * Deployadactyl: the push Action and the stop controller

    A shallow embedding of two pieces of the deployment orchestrator:

    - [Push]: the per-foundation blue/green push action ([Pusher]) with its
      phases [Initially], [Verify], [Execute], [Success], [Undo], [Finally];
    - [Stop]: the operation controller [StopController.StopDeployment] with
      its envelope events and deferred emissions.

    Go code is stateful: it talks to a courier, an event manager, a logger and
    a response buffer.  Every method is embedded as a state-passing function
    over a [World] that holds the collaborators' state, the contents of the
    response buffer and a chronological trace of the calls the method made. *)

From Stdlib Require Import String Ascii List NArith ZArith Lia Bool.
From stdpp Require Import base option list strings gmap.

Set Default Proof Using "Type".
Local Open Scope string_scope.

(** ** Strings and byte slices

    Go's [[]byte] outputs are only ever concatenated and printed, so they are
    embedded as strings; [+] on Go strings is [String.append]. *)

Definition bytes := string.

Definition nl : string := String (ascii_of_nat 10) EmptyString.

Definition tab : string := String (ascii_of_nat 9) EmptyString.

(** [fmt.Fprintln(w, s)] writes [s] followed by a newline. *)
Definition Sprintln (s : string) : string := s +:+ nl.

(** Values of Go's [interface{}] that travel in the [Data] and
    [CustomParams] maps.  No method modelled here inspects them. *)
Inductive any : Type :=
| AnyString (s : string)
| AnyInt (z : Z)
| AnyBool (b : bool).

(** ** Errors *)

(** [interfaces.LogMatchedError]: a diagnosis produced by the error finder. *)
Module LogMatchedError.
Record t : Type := mk {
    Error : string;
    Details : list string;
    Solution : string
  }.
End LogMatchedError.

(** The error values that the embedded code builds or passes along.
    [Opaque] stands for an error value produced by a collaborator (courier,
    event subscriber, deployer). *)
Inductive error : Type :=
| Opaque (msg : string)
| Matched (e : LogMatchedError.t)
| EnvironmentNotFoundError (env : string)
| BasicAuthError
| InitializationError (Err : error)
| EventError (Type_ : string) (Err : error)
| LoginError (FoundationURL : string) (Out : bytes)
| CloudFoundryGetLogsError (CfErr : error) (CfLogsErr : error)
| PushError
| MapRouteError (Out : bytes)
| UnmapRouteError (AppName : string) (Out : bytes)
| DeleteApplicationError (AppName : string) (Out : bytes)
| RenameError (AppName : string) (Out : bytes).

(** ** Structs *)

Module CFContext.
Record t : Type := mk {
    Environment : string;
    Organization : string;
    Space : string;
    Application : string
  }.
End CFContext.

Module Authorization.
Record t : Type := mk {
    Username : string;
    Password : string
  }.
(** The zero value [I.Authorization{}]. *)
Definition zero : t := mk "" "".
End Authorization.

Module Environment.
Record t : Type := mk {
    Name : string;
    Domain : string;
    Foundations : list string;
    Authenticate : bool;
    SkipSSL : bool;
    EnableRollback : bool;
    CustomParams : gmap string any
  }.
End Environment.

Module DeploymentInfo.
Record t : Type := mk {
    Org : string;
    Space : string;
    AppName : string;
    Environment : string;
    UUID : string;
    Domain : string;
    SkipSSL : bool;
    CustomParams : gmap string any;
    Username : string;
    Password : string;
    Data : gmap string any;
    Instances : N;
    Manifest : string;
    HealthCheckEndpoint : string
  }.
End DeploymentInfo.

(** ** Logger calls

    A logger call is recorded with its format string and its arguments. *)
Inductive LogCall : Type :=
| Debug (msg : string)
| Debugf (format : string) (args : list string)
| Infof (format : string) (args : list string)
| Error (e : error)
| Errorf (format : string) (args : list string).

(** ** A small state monad *)

Definition M (S A : Type) : Type := S -> A * S.

Definition ret {S A : Type} (a : A) : M S A := fun s => (a, s).

Definition bind {S A B : Type} (m : M S A) (k : A -> M S B) : M S B :=
  fun s => let (a, s') := m s in k a s'.

Declare Scope go_scope.
Delimit Scope go_scope with go.
Notation "'let*' p ':=' m 'in' k" := (bind m (fun p => k))
  (at level 10, p pattern, m at level 200, k at level 200,
   format "'[v' 'let*'  p  ':='  m  'in' '/' k ']'") : go_scope.
Local Open Scope go_scope.


(** * Package push: the blue/green push action *)

Module push.

(** [TemporaryNameSuffix] is used when deploying the new application in
    order not to override the existing application name. *)
Definition TemporaryNameSuffix : string := "-new-build-".

(** The calls of the [I.Courier] interface that [Pusher] makes, with their
    arguments. *)
Inductive CourierCall : Type :=
| CLogin (foundationURL username password org space : string) (skipSSL : bool)
| CPush (appName appLocation hostname : string) (instances : N)
| CLogs (appName : string)
| CMapRoute (appName domain hostname : string)
| CUnmapRoute (appName domain hostname : string)
| CDelete (appName : string)
| CRename (oldName newName : string)
| CExists (appName : string)
| CCleanUp.

(** [S.PushEventData], the payload of the named [C.PushFinishedEvent].  Its
    [Courier] and [Response] fields are references to the courier and the
    response buffer of the [World]. *)
Module PushEventData.
Record t : Type := mk {
    AppPath : string;
    FoundationURL : string;
    TempAppWithUUID : string;
    DeploymentInfo : DeploymentInfo.t
  }.
End PushEventData.

(** The typed [PushFinishedEvent] of this package. *)
Module PushFinishedEvent.
Record t : Type := mk {
    CFContext : CFContext.t;
    Auth : Authorization.t;
    AppPath : string;
    FoundationURL : string;
    TempAppWithUUID : string;
    Data : gmap string any;
    Manifest : string;
    HealthCheckEndpoint : string
  }.
End PushFinishedEvent.

(** What a [Pusher] method does to its collaborators, in call order. *)
Inductive Call : Type :=
| Courier (c : CourierCall)
| Log (l : LogCall)
| Emit (Type_ : string) (Data : PushEventData.t)
| EmitEvent (e : PushFinishedEvent.t).

(** The [I.Courier] interface over the state [X] of the collaborators.
    Every command returns its output and an optional error. *)
Module ICourier.
Record t (X : Type) : Type := mk {
    Login : string -> string -> string -> string -> string -> bool ->
            M X (bytes * option error);
    Push : string -> string -> string -> N -> M X (bytes * option error);
    Logs : string -> M X (bytes * option error);
    MapRoute : string -> string -> string -> M X (bytes * option error);
    UnmapRoute : string -> string -> string -> M X (bytes * option error);
    Delete : string -> M X (bytes * option error);
    Rename : string -> string -> M X (bytes * option error);
    Exists : string -> M X bool;
    CleanUp : M X (option error)
  }.
Arguments Login {X}.
Arguments Push {X}.
Arguments Logs {X}.
Arguments MapRoute {X}.
Arguments UnmapRoute {X}.
Arguments Delete {X}.
Arguments Rename {X}.
Arguments Exists {X}.
Arguments CleanUp {X}.
End ICourier.

(** The [I.EventManager] interface as [Pusher] uses it.  Subscribers receive
    the courier and the response buffer with the event, so an emission may
    change the collaborators' state and the buffer. *)
Module IEventManager.
Record t (X : Type) : Type := mk {
    Emit : string -> PushEventData.t -> M (X * bytes) (option error);
    EmitEvent : PushFinishedEvent.t -> M (X * bytes) (option error)
  }.
Arguments Emit {X}.
Arguments EmitEvent {X}.
End IEventManager.

(** The state a [Pusher] method runs in. *)
Module World.
Record t (X : Type) : Type := mk {
    ext : X;
    response : bytes;
    trace : list Call
  }.
Arguments mk {X}.
Arguments ext {X}.
Arguments response {X}.
Arguments trace {X}.
End World.

(** [Pusher] has a courier used to push applications to Cloud Foundry.  It
    represents logging into a single foundation to perform operations.
    [Response] and [Log] live in the [World]; [Fetcher] is never used. *)
Module Pusher.
Record t (X : Type) : Type := mk {
    Courier : ICourier.t X;
    DeploymentInfo : DeploymentInfo.t;
    EventManager : IEventManager.t X;
    FoundationURL : string;
    AppPath : string;
    Environment : Environment.t;
    CFContext : CFContext.t;
    Auth : Authorization.t
  }.
Arguments Courier {X}.
Arguments DeploymentInfo {X}.
Arguments EventManager {X}.
Arguments FoundationURL {X}.
Arguments AppPath {X}.
Arguments Environment {X}.
Arguments CFContext {X}.
Arguments Auth {X}.
End Pusher.

Section Methods.
Context {X : Type}.

(** The [Error()] method of the error values; its implementations live in
      other packages. *)
Variable ErrorString : error -> string.
(** The constant [C.PushFinishedEvent] of package constants. *)
Variable C_PushFinishedEvent : string.
(** The [Name()] method of the typed [PushFinishedEvent]. *)
Variable Name : PushFinishedEvent.t -> string.

Variable p : Pusher.t X.

Abbreviation W := (World.t X).
Abbreviation di := (Pusher.DeploymentInfo p).

(** A courier call: runs on the collaborators' state, recorded in the
      trace. *)
Definition courier {A : Type} (c : CourierCall) (m : M X A) : M W A :=
    fun w =>
      let (a, x) := m (World.ext w) in
      (a, World.mk x (World.response w) (World.trace w ++ [Courier c])).

Definition log (l : LogCall) : M W unit :=
    fun w =>
      (tt, World.mk (World.ext w) (World.response w) (World.trace w ++ [Log l])).

(** [p.Response.Write(out)] *)
Definition Write (out : bytes) : M W unit :=
    fun w =>
      (tt, World.mk (World.ext w) (World.response w +:+ out) (World.trace w)).

(** An emission: the subscribers run on the collaborators' state and on
      the response buffer. *)
Definition emit (c : Call) (m : M (X * bytes) (option error))
    : M W (option error) :=
    fun w =>
      let '(r, (x, resp)) := m (World.ext w, World.response w) in
      (r, World.mk x resp (World.trace w ++ [c])).

(** Login will login to a Cloud Foundry instance. *)
Definition Initially : M W (option error) :=
    let* _ := log (Debugf
      ("logging into cloud foundry with parameters:" +:+ nl +:+
       tab +:+ tab +:+ "foundation URL: %+v" +:+ nl +:+
       tab +:+ tab +:+ "username: %+v" +:+ nl +:+
       tab +:+ tab +:+ "org: %+v" +:+ nl +:+
       tab +:+ tab +:+ "space: %+v")
      [Pusher.FoundationURL p; DeploymentInfo.Username di;
       DeploymentInfo.Org di; DeploymentInfo.Space di]) in
    let* (output, err) :=
      courier
        (CLogin (Pusher.FoundationURL p) (DeploymentInfo.Username di)
           (DeploymentInfo.Password di) (DeploymentInfo.Org di)
           (DeploymentInfo.Space di) (DeploymentInfo.SkipSSL di))
        (ICourier.Login (Pusher.Courier p) (Pusher.FoundationURL p)
           (DeploymentInfo.Username di) (DeploymentInfo.Password di)
           (DeploymentInfo.Org di) (DeploymentInfo.Space di)
           (DeploymentInfo.SkipSSL di)) in
    let* _ := Write output in
    match err with
    | Some _ =>
        let* _ := log (Errorf "could not login to %s" [Pusher.FoundationURL p]) in
        ret (Some (LoginError (Pusher.FoundationURL p) output))
    | None =>
        let* _ := log (Infof "logged into cloud foundry %s" [Pusher.FoundationURL p]) in
        ret None
    end.

Definition Verify : M W (option error) := ret None.

(** The part of [pushApplication] before its deferred calls run.  It
      returns the final values of the locals the deferred closures read
      ([pushOutput], [cloudFoundryLogs]), whether the third deferred call
      (the [Errorf] of the logs) was registered, and the error returned. *)
Definition pushApplication_body (appName appPath : string)
    : M W (bytes * bytes * bool * option error) :=
    let* _ := log (Debugf "pushing app %s to %s" [appName; DeploymentInfo.Domain di]) in
    let* _ := log (Debugf "tempdir for app %s: %s" [appName; appPath]) in
    let* (pushOutput, err) :=
      courier (CPush appName appPath (DeploymentInfo.AppName di) (DeploymentInfo.Instances di))
        (ICourier.Push (Pusher.Courier p) appName appPath
           (DeploymentInfo.AppName di) (DeploymentInfo.Instances di)) in
    let* _ := log (Infof ("output from Cloud Foundry: " +:+ nl +:+ "%s") [pushOutput]) in
    match err with
    | Some err =>
        let* (cloudFoundryLogs, cloudFoundryLogsErr) :=
          courier (CLogs appName) (ICourier.Logs (Pusher.Courier p) appName) in
        match cloudFoundryLogsErr with
        | Some cloudFoundryLogsErr =>
            ret (pushOutput, cloudFoundryLogs, true,
                 Some (CloudFoundryGetLogsError err cloudFoundryLogsErr))
        | None => ret (pushOutput, cloudFoundryLogs, true, Some PushError)
        end
    | None =>
        let* _ := log (Infof "successfully deployed new build %s" [appName]) in
        ret (pushOutput, "", false, None)
    end.

(** [pushApplication]: the body, then the deferred calls, last registered
      first: the [Errorf] of the logs (registered on a push error only), the
      write of [pushOutput], the write of [cloudFoundryLogs]. *)
Definition pushApplication (appName appPath : string) : M W (option error) :=
    let* (pushOutput, cloudFoundryLogs, logsDeferred, err) :=
      pushApplication_body appName appPath in
    let* _ := (if logsDeferred : bool
               then log (Errorf ("logs from %s: " +:+ nl +:+ "%s") [appName; cloudFoundryLogs])
               else ret tt) in
    let* _ := Write pushOutput in
    let* _ := Write cloudFoundryLogs in
    ret err.

Definition mapTempAppToLoadBalancedDomain (appName : string) : M W (option error) :=
    let* _ := log (Debugf "mapping route for %s to %s"
                     [DeploymentInfo.AppName di; DeploymentInfo.Domain di]) in
    let* (out, err) :=
      courier (CMapRoute appName (DeploymentInfo.Domain di) (DeploymentInfo.AppName di))
        (ICourier.MapRoute (Pusher.Courier p) appName
           (DeploymentInfo.Domain di) (DeploymentInfo.AppName di)) in
    match err with
    | Some _ =>
        let* _ := log (Errorf "could not map %s to %s"
                         [DeploymentInfo.AppName di; DeploymentInfo.Domain di]) in
        ret (Some (MapRouteError out))
    | None =>
        let* _ := log (Infof "application route created: %s.%s"
                         [DeploymentInfo.AppName di; DeploymentInfo.Domain di]) in
        let* _ := Write ("application route created: " +:+
                         DeploymentInfo.AppName di +:+ "." +:+ DeploymentInfo.Domain di) in
        ret None
    end.

Definition unMapLoadBalancedRoute : M W (option error) :=
    if negb (String.eqb (DeploymentInfo.Domain di) "") then
      let* _ := log (Debugf "unmapping route %s" [DeploymentInfo.AppName di]) in
      let* (out, err) :=
        courier (CUnmapRoute (DeploymentInfo.AppName di) (DeploymentInfo.Domain di)
                   (DeploymentInfo.AppName di))
          (ICourier.UnmapRoute (Pusher.Courier p) (DeploymentInfo.AppName di)
             (DeploymentInfo.Domain di) (DeploymentInfo.AppName di)) in
      match err with
      | Some _ =>
          let* _ := log (Errorf "could not unmap %s" [DeploymentInfo.AppName di]) in
          ret (Some (UnmapRouteError (DeploymentInfo.AppName di) out))
      | None =>
          let* _ := log (Infof "unmapped route %s" [DeploymentInfo.AppName di]) in
          ret None
      end
    else ret None.

Definition deleteApplication (appName : string) : M W (option error) :=
    let* _ := log (Debugf "deleting %s" [appName]) in
    let* (out, err) :=
      courier (CDelete appName) (ICourier.Delete (Pusher.Courier p) appName) in
    match err with
    | Some err =>
        let* _ := log (Errorf "could not delete %s" [appName]) in
        let* _ := log (Errorf "deletion error %s" [ErrorString err]) in
        let* _ := log (Errorf "deletion output" [out]) in
        ret (Some (DeleteApplicationError appName out))
    | None =>
        let* _ := log (Infof "deleted %s" [appName]) in
        ret None
    end.

Definition renameNewBuildToOriginalAppName : M W (option error) :=
    let* _ := log (Debugf "renaming %s to %s"
      [(DeploymentInfo.AppName di +:+ TemporaryNameSuffix) +:+ DeploymentInfo.UUID di;
       DeploymentInfo.AppName di]) in
    let* (out, err) :=
      courier
        (CRename ((DeploymentInfo.AppName di +:+ TemporaryNameSuffix) +:+ DeploymentInfo.UUID di)
           (DeploymentInfo.AppName di))
        (ICourier.Rename (Pusher.Courier p)
           ((DeploymentInfo.AppName di +:+ TemporaryNameSuffix) +:+ DeploymentInfo.UUID di)
           (DeploymentInfo.AppName di)) in
    match err with
    | Some _ =>
        let* _ := log (Errorf "could not rename %s to %s"
          [(DeploymentInfo.AppName di +:+ TemporaryNameSuffix) +:+ DeploymentInfo.UUID di;
           DeploymentInfo.AppName di]) in
        ret (Some (RenameError
          ((DeploymentInfo.AppName di +:+ TemporaryNameSuffix) +:+ DeploymentInfo.UUID di) out))
    | None =>
        let* _ := log (Infof "renamed %s to %s"
          [(DeploymentInfo.AppName di +:+ TemporaryNameSuffix) +:+ DeploymentInfo.UUID di;
           DeploymentInfo.AppName di]) in
        ret None
    end.

Definition Execute : M W (option error) :=
  let tempAppWithUUID :=
    (DeploymentInfo.AppName di +:+ TemporaryNameSuffix) +:+ DeploymentInfo.UUID di in
  let* err := pushApplication tempAppWithUUID (Pusher.AppPath p) in
  match err with
  | Some err => ret (Some err)
  | None =>
  let* err :=
    (if negb (String.eqb (DeploymentInfo.Domain di) "")
     then mapTempAppToLoadBalancedDomain tempAppWithUUID
     else ret None) in
  match err with
  | Some err => ret (Some err)
  | None =>
  let* _ := log (Debugf "emitting a %s event" [C_PushFinishedEvent]) in
  let pushData :=
    PushEventData.mk (Pusher.AppPath p) (Pusher.FoundationURL p) tempAppWithUUID di in
  let* err := emit (Emit C_PushFinishedEvent pushData)
                (IEventManager.Emit (Pusher.EventManager p) C_PushFinishedEvent pushData) in
  match err with
  | Some err => ret (Some err)
  | None =>
  let* _ := log (Infof "emitted a %s event" [C_PushFinishedEvent]) in
  let event :=
    PushFinishedEvent.mk (Pusher.CFContext p) (Pusher.Auth p) (Pusher.AppPath p)
      (Pusher.FoundationURL p) tempAppWithUUID (DeploymentInfo.Data di)
      (DeploymentInfo.Manifest di) (DeploymentInfo.HealthCheckEndpoint di) in
  let* err := emit (EmitEvent event)
                (IEventManager.EmitEvent (Pusher.EventManager p) event) in
  match err with
  | Some err => ret (Some err)
  | None =>
  let* _ := log (Infof "emitted a %s event" [Name event]) in
  ret None
  end end end end.

(** FinishPush will delete the original application if it existed.  It will
    always rename the newly pushed application to the appName. *)
Definition Success : M W (option error) :=
  let* exists_ := courier (CExists (DeploymentInfo.AppName di))
                    (ICourier.Exists (Pusher.Courier p) (DeploymentInfo.AppName di)) in
  let* err :=
    (if exists_ : bool then
       let* err := unMapLoadBalancedRoute in
       match err with
       | Some err => ret (Some err)
       | None => deleteApplication (DeploymentInfo.AppName di)
       end
     else ret None) in
  match err with
  | Some err => ret (Some err)
  | None => renameNewBuildToOriginalAppName
  end.

(** UndoPush is only called when a Push fails.  If it is not the first
    deployment, UndoPush will delete the temporary application that was
    pushed.  If is the first deployment, UndoPush will rename the failed
    push to have the appName. *)
Definition Undo : M W (option error) :=
  let tempAppWithUUID :=
    (DeploymentInfo.AppName di +:+ TemporaryNameSuffix) +:+ DeploymentInfo.UUID di in
  if negb (Environment.EnableRollback (Pusher.Environment p)) then
    let* _ := log (Errorf
      "Failed to deploy, deployment not rolled back due to EnableRollback=false" []) in
    Success
  else
    let* exists_ := courier (CExists (DeploymentInfo.AppName di))
                      (ICourier.Exists (Pusher.Courier p) (DeploymentInfo.AppName di)) in
    if exists_ : bool then
      let* _ := log (Errorf "rolling back deploy of %s" [tempAppWithUUID]) in
      deleteApplication tempAppWithUUID
    else
      let* _ := log (Errorf "app %s did not previously exist: not rolling back"
                       [DeploymentInfo.AppName di]) in
      renameNewBuildToOriginalAppName.

(** CleanUp removes the temporary directory created by the Executor. *)
Definition Finally : M W (option error) :=
  courier CCleanUp (ICourier.CleanUp (Pusher.Courier p)).

End Methods.

End push.

(** * Package stop: the stop controller *)

(** The status codes of [net/http] that the controller uses. *)
Module http.
Definition StatusInternalServerError : Z := 500.
Definition StatusUnauthorized : Z := 401.
End http.

(** How a Go call ends: it returns a value or it panics. *)
Inductive Outcome (A : Type) : Type :=
| Returned (a : A)
| Panicked.
Arguments Returned {A} a.
Arguments Panicked {A}.

Module stop.

(** [I.Deployment], passed by reference to the controller; only these two
    fields are read. *)
Module Deployment.
Record t : Type := mk {
  CFContext : CFContext.t;
  Authorization : Authorization.t
}.
End Deployment.

(** [I.DeployResponse]; [DeploymentInfo] is a pointer and [Error] an
    interface value, both may be nil. *)
Module DeployResponse.
Record t : Type := mk {
  StatusCode : Z;
  DeploymentInfo : option DeploymentInfo.t;
  Error : option error
}.
(** The zero value of the named result [deployResponse]. *)
Definition zero : t := mk 0 None None.
End DeployResponse.

(** The fields of [config.Config] that the controller reads. *)
Module Config.
Record t : Type := mk {
  Username : string;
  Password : string;
  Environments : gmap string Environment.t
}.
End Config.

(** [I.DeploymentLogger]: carries the UUID of the deployment; its logging
    calls are recorded in the trace of the [World]. *)
Module DeploymentLogger.
Record t : Type := mk {
  UUID : string
}.
End DeploymentLogger.

(** The fields shared by the four envelope events of this package.  Their
    [Response] field is a reference to the response buffer of the [World]. *)
Module StopEvent.
Record t : Type := mk {
  CFContext : CFContext.t;
  Authorization : Authorization.t;
  Environment : Environment.t;
  Data : gmap string any;
  Log : DeploymentLogger.t
}.
End StopEvent.

Inductive IEvent : Type :=
| StopStartedEvent (e : StopEvent.t)
| StopFinishedEvent (e : StopEvent.t)
| StopSuccessEvent (e : StopEvent.t)
| StopFailureEvent (e : StopEvent.t) (Error : error).

(** [structs.DeployEventData]; [Response] is the buffer of the [World]. *)
Module DeployEventData.
Record t : Type := mk {
  DeploymentInfo : DeploymentInfo.t
}.
End DeployEventData.

(** What the controller does to its collaborators, in call order. *)
Inductive Call : Type :=
| Log (l : LogCall)
| EmitEvent (e : IEvent)
| FindErrors (responseString : string)
| StopManager (d : DeployEventData.t)
| Deploy (deploymentInfo : DeploymentInfo.t) (environment : Environment.t).

(** [StopController] over the state [X] of its collaborators and the type
    [AC] of action creators.  Subscribers and the deployer receive the
    response buffer, so they run on the state and on the buffer.
    [Deploy] returns a pointer, which may be nil. *)
Module StopController.
Record t (X AC : Type) : Type := mk {
  Deploy : DeploymentInfo.t -> Environment.t -> AC ->
           M (X * bytes) (option DeployResponse.t);
  Log : DeploymentLogger.t;
  StopManager : DeployEventData.t -> M X AC;
  Config : Config.t;
  EmitEvent : IEvent -> M (X * bytes) (option error);
  FindErrors : string -> M X (list LogMatchedError.t)
}.
Arguments Deploy {X AC}.
Arguments Log {X AC}.
Arguments StopManager {X AC}.
Arguments Config {X AC}.
Arguments EmitEvent {X AC}.
Arguments FindErrors {X AC}.
End StopController.

Module World.
Record t (X : Type) : Type := mk {
  ext : X;
  response : bytes;
  trace : list Call
}.
Arguments mk {X}.
Arguments ext {X}.
Arguments response {X}.
Arguments trace {X}.
End World.

Section Methods.
Context {X AC : Type}.

(** The [Error()] method of the error values. *)
Variable ErrorString : error -> string.
(** The [Name()] method of the events of this package. *)
Variable Name : IEvent -> string.

Variable c : StopController.t X AC.

Abbreviation W := (World.t X).

Definition log (l : LogCall) : M W unit :=
  fun w =>
    (tt, World.mk (World.ext w) (World.response w) (World.trace w ++ [Log l])).

(** A write to the response buffer ([fmt.Fprint] and [fmt.Fprintln]). *)
Definition Write (out : bytes) : M W unit :=
  fun w =>
    (tt, World.mk (World.ext w) (World.response w +:+ out) (World.trace w)).

(** [tempBuffer.ReadFrom(response)]: reads the buffer to its end, which
    leaves it empty. *)
Definition ReadFrom : M W string :=
  fun w => (World.response w, World.mk (World.ext w) "" (World.trace w)).

(** A call of a collaborator that sees the state only. *)
Definition call {A : Type} (k : Call) (m : M X A) : M W A :=
  fun w =>
    let (a, x) := m (World.ext w) in
    (a, World.mk x (World.response w) (World.trace w ++ [k])).

(** A call of a collaborator that holds the response buffer. *)
Definition call_rw {A : Type} (k : Call) (m : M (X * bytes) A) : M W A :=
  fun w =>
    let '(a, (x, resp)) := m (World.ext w, World.response w) in
    (a, World.mk x resp (World.trace w ++ [k])).

Definition resolveAuthorization (auth : Authorization.t) (envs : Environment.t)
  : M W (Authorization.t * option error) :=
  let config := StopController.Config c in
  let* _ := log (Debug "checking for basic auth") in
  if String.eqb (Authorization.Username auth) "" &&
     String.eqb (Authorization.Password auth) "" then
    if Environment.Authenticate envs then
      ret (Authorization.zero, Some BasicAuthError)
    else
      ret (Authorization.mk (Config.Username config) (Config.Password config), None)
  else ret (auth, None).

Definition resolveEnvironment (env : string) : Environment.t + error :=
  let config := StopController.Config c in
  match Config.Environments config !! env with
  | None => inr (EnvironmentNotFoundError env)
  | Some environment => inl environment
  end.

(** The loop of [printErrors] over the found errors.  [error.Details()[0]]
    panics when the error has no detail line; the writes made before it
    stay in the buffer. *)
Fixpoint printErrors_loop (errors : list LogMatchedError.t) : M W (Outcome unit) :=
  match errors with
  | [] => ret (Returned tt)
  | error :: errors' =>
      let* _ := Write (Sprintln "") in
      let* _ := Write (Sprintln "*******************") in
      let* _ := Write (Sprintln "") in
      let* _ := Write (Sprintln ("The following error was found in the above logs: "
                                 +:+ LogMatchedError.Error error)) in
      let* _ := Write (Sprintln "") in
      match LogMatchedError.Details error with
      | [] => ret Panicked
      | detail :: _ =>
          let* _ := Write (Sprintln ("Error: " +:+ detail)) in
          let* _ := Write (Sprintln "") in
          let* _ := Write (Sprintln ("Potential solution: "
                                     +:+ LogMatchedError.Solution error)) in
          let* _ := Write (Sprintln "") in
          let* _ := Write (Sprintln "*******************") in
          printErrors_loop errors'
      end
  end.

(** [printErrors] takes the error by pointer; the embedding takes the value
    it points to and returns the value it holds afterwards. *)
Definition printErrors (err : error) : M W (Outcome unit * error) :=
  let* tempBuffer := ReadFrom in
  let* _ := Write tempBuffer in
  let* errors := call (FindErrors tempBuffer) (StopController.FindErrors c tempBuffer) in
  match errors with
  | [] => ret (Returned tt, err)
  | first :: _ =>
      let* o := printErrors_loop errors in
      ret (o, Matched first)
  end.

(** [emitStopFinish]; the error of the emission is dropped. *)
Definition emitStopFinish (cfContext : CFContext.t) (auth : Authorization.t)
    (environment : Environment.t) (data : gmap string any) : M W unit :=
  let event :=
    StopFinishedEvent (StopEvent.mk cfContext auth environment data (StopController.Log c)) in
  let* _ := log (Debugf "emitting a %s event" [Name event]) in
  let* _ := call_rw (EmitEvent event) (StopController.EmitEvent c event) in
  ret tt.

(** The end of [emitStopSuccessOrFailure], common to both branches: the
    event built by the branch is emitted; an error of the emission is logged
    and written to the response. *)
Definition emitStopSuccessOrFailure_emit (event : IEvent) : M W unit :=
  let* _ := log (Debugf "emitting a %s event" [Name event]) in
  let* eventErr := call_rw (EmitEvent event) (StopController.EmitEvent c event) in
  match eventErr with
  | Some eventErr =>
      let* _ := log (Errorf "an error occurred when emitting a %s event: %s"
                       [Name event; ErrorString eventErr]) in
      Write (Sprintln (ErrorString eventErr))
  | None => ret tt
  end.

(** [emitStopSuccessOrFailure] takes [deployResponse] by pointer; the
    embedding returns the value it holds afterwards. *)
Definition emitStopSuccessOrFailure (cfContext : CFContext.t) (auth : Authorization.t)
    (environment : Environment.t) (data : gmap string any)
    (deployResponse : DeployResponse.t) : M W (Outcome unit * DeployResponse.t) :=
  match DeployResponse.Error deployResponse with
  | Some err =>
      let* (o, err) := printErrors err in
      let deployResponse :=
        DeployResponse.mk (DeployResponse.StatusCode deployResponse)
          (DeployResponse.DeploymentInfo deployResponse) (Some err) in
      match o with
      | Returned _ =>
          let* _ := emitStopSuccessOrFailure_emit (StopFailureEvent
                      (StopEvent.mk cfContext auth environment data (StopController.Log c))
                      err) in
          ret (Returned tt, deployResponse)
      | Panicked => ret (Panicked, deployResponse)
      end
  | None =>
      let* _ := emitStopSuccessOrFailure_emit (StopSuccessEvent
                  (StopEvent.mk cfContext auth environment data (StopController.Log c))) in
      ret (Returned tt, deployResponse)
  end.

(** The part of [StopDeployment] between the registration of the two
    deferred calls and their execution: the result it assigns to the named
    result [deployResponse], or a panic (a nil pointer from [Deploy]). *)
Definition StopDeployment_body (cf : CFContext.t) (auth : Authorization.t)
    (environment : Environment.t) (data : gmap string any)
    (deploymentInfo : DeploymentInfo.t) : M W (Outcome DeployResponse.t) :=
  let started :=
    StopStartedEvent (StopEvent.mk cf auth environment data (StopController.Log c)) in
  let* err := call_rw (EmitEvent started) (StopController.EmitEvent c started) in
  match err with
  | Some err =>
      let* _ := log (Error err) in
      let err := InitializationError err in
      ret (Returned (DeployResponse.mk http.StatusInternalServerError
                       (Some deploymentInfo)
                       (Some (EventError "StopStartedEvent" err))))
  | None =>
      let deployEventData := DeployEventData.mk deploymentInfo in
      let* manager := call (StopManager deployEventData)
                        (StopController.StopManager c deployEventData) in
      let* r := call_rw (Deploy deploymentInfo environment)
                  (StopController.Deploy c deploymentInfo environment manager) in
      match r with
      | Some r => ret (Returned r)
      | None => ret Panicked
      end
  end.

Definition StopDeployment (deployment : Deployment.t)
    (data : option (gmap string any)) : M W (Outcome DeployResponse.t) :=
  let cf := Deployment.CFContext deployment in
  let* _ := log (Debugf "Preparing to stop %s with UUID %s"
                   [CFContext.Application cf; DeploymentLogger.UUID (StopController.Log c)]) in
  let data := match data with None => ∅ | Some data => data end in
  match resolveEnvironment (CFContext.Environment cf) with
  | inr err =>
      let* _ := Write (Sprintln (ErrorString err)) in
      ret (Returned (DeployResponse.mk http.StatusInternalServerError None (Some err)))
  | inl environment =>
  let* (auth, err) := resolveAuthorization (Deployment.Authorization deployment) environment in
  match err with
  | Some err =>
      ret (Returned (DeployResponse.mk http.StatusUnauthorized None (Some err)))
  | None =>
  let deploymentInfo :=
    DeploymentInfo.mk (CFContext.Organization cf) (CFContext.Space cf)
      (CFContext.Application cf) (CFContext.Environment cf)
      (DeploymentLogger.UUID (StopController.Log c))
      (Environment.Domain environment) (Environment.SkipSSL environment)
      (Environment.CustomParams environment)
      (Authorization.Username auth) (Authorization.Password auth)
      data 0%N "" "" in
  let* body := StopDeployment_body cf auth environment data deploymentInfo in
  (* the deferred calls, last registered first *)
  let deployResponse :=
    match body with Returned r => r | Panicked => DeployResponse.zero end in
  let* (o, deployResponse) :=
    emitStopSuccessOrFailure cf auth environment data deployResponse in
  let* _ := emitStopFinish cf auth environment data in
  match body, o with
  | Returned _, Returned _ => ret (Returned deployResponse)
  | _, _ => ret Panicked
  end
  end end.

End Methods.

End stop.

(** * Package mocks: the scripted stopper creator *)

Module mocks.

(** Go's [int], taken as 64 bits wide: after an increment the value wraps
    around into the range of signed 64-bit integers. *)
Definition wrap_int (z : Z) : Z :=
  ((z + 2 ^ 63) mod 2 ^ 64 - 2 ^ 63)%Z.

(** [s[i]] on a slice: [None] stands for the panic on an index that is
    negative or not below the length. *)
Definition index {A : Type} (s : list A) (i : Z) : option A :=
  if (i <? 0)%Z then None else s !! Z.to_nat i.

(** [receivedCall]; [Response] is a reference to a read-writer, of which
    only the identity [RW] is kept. *)
Module receivedCall.
Record t (RW : Type) : Type := mk {
  DeploymentInfo : DeploymentInfo.t;
  Response : RW
}.
Arguments mk {RW}.
Arguments DeploymentInfo {RW}.
Arguments Response {RW}.
End receivedCall.

(** [StopperCreator] with its [CreateStopperCall] bookkeeping, over the
    type [Action] of the values of [interfaces.Stopper]. *)
Module StopperCreator.
Record t (Action RW : Type) : Type := mk {
  TimesCalled : Z;
  Received : list (receivedCall.t RW);
  Stoppers : list Action;
  Error : list (option error)
}.
Arguments mk {Action RW}.
Arguments TimesCalled {Action RW}.
Arguments Received {Action RW}.
Arguments Stoppers {Action RW}.
Arguments Error {Action RW}.
End StopperCreator.

Section Create.
Context {Action RW : Type}.

(** [Create] records the call, then returns the stopper and the error
    scripted for the current count.  The count is incremented by a deferred
    call: after the results are evaluated, and also when evaluating them
    panics. *)
Definition Create (deploymentInfo : DeploymentInfo.t) (cfContext : CFContext.t)
    (authorization : Authorization.t) (response : RW)
    (foundationURL appPath : string)
  : M (StopperCreator.t Action RW) (Outcome (Action * option error)) :=
  fun s =>
    let received := receivedCall.mk deploymentInfo response in
    let s1 := StopperCreator.mk (StopperCreator.TimesCalled s)
                (StopperCreator.Received s ++ [received])
                (StopperCreator.Stoppers s) (StopperCreator.Error s) in
    let result :=
      match index (StopperCreator.Stoppers s1) (StopperCreator.TimesCalled s1) with
      | None => Panicked
      | Some stopper =>
          match index (StopperCreator.Error s1) (StopperCreator.TimesCalled s1) with
          | None => Panicked
          | Some err => Returned (stopper, err)
          end
      end in
    (result,
     StopperCreator.mk (wrap_int (StopperCreator.TimesCalled s1 + 1))
       (StopperCreator.Received s1) (StopperCreator.Stoppers s1)
       (StopperCreator.Error s1)).

End Create.

End mocks.

(** * Observations on runs

    The statements below observe what a method call adds to the trace. *)

Local Open Scope list_scope.

Section PushObservations.
Context {X : Type}.

(** The courier calls in a trace, in order. *)
Definition courier_calls (tr : list push.Call) : list push.CourierCall :=
  omap (fun k => match k with push.Courier c => Some c | _ => None end) tr.

(** What running [m] from [w] appends to the trace. *)
Definition made {A : Type} (m : M (push.World.t X) A) (w : push.World.t X)
  : list push.Call :=
  drop (length (push.World.trace w)) (push.World.trace (snd (m w))).

(** The courier calls that running [m] from [w] makes. *)
Definition courier_made {A : Type} (m : M (push.World.t X) A) (w : push.World.t X)
  : list push.CourierCall :=
  courier_calls (made m w).

End PushObservations.

Definition is_MapRoute (c : push.CourierCall) : bool :=
  match c with push.CMapRoute _ _ _ => true | _ => false end.

Definition is_UnmapRoute (c : push.CourierCall) : bool :=
  match c with push.CUnmapRoute _ _ _ => true | _ => false end.

(** The application a courier call acts on: the pushed, mapped, logged,
    deleted or renamed application. *)
Definition subject (c : push.CourierCall) : option string :=
  match c with
  | push.CPush appName _ _ _ => Some appName
  | push.CLogs appName => Some appName
  | push.CMapRoute appName _ _ => Some appName
  | push.CUnmapRoute appName _ _ => Some appName
  | push.CDelete appName => Some appName
  | push.CRename oldName _ => Some oldName
  | push.CExists appName => Some appName
  | push.CLogin _ _ _ _ _ _ | push.CCleanUp => None
  end.

(** The temporary name as a function of the deployment alone. *)
Definition temp_name (d : DeploymentInfo.t) : string :=
  (DeploymentInfo.AppName d +:+ "-new-build-") +:+ DeploymentInfo.UUID d.

(** [names temp k]: if [k] pushes, maps, fetches the logs of or renames an
    application, or announces the pushed application in an event, that
    application is [temp]. *)
Definition names (temp : string) (k : push.Call) : Prop :=
  match k with
  | push.Courier (push.CPush n _ _ _)
  | push.Courier (push.CLogs n)
  | push.Courier (push.CMapRoute n _ _)
  | push.Courier (push.CRename n _) => n = temp
  | push.Emit _ data => push.PushEventData.TempAppWithUUID data = temp
  | push.EmitEvent e => push.PushFinishedEvent.TempAppWithUUID e = temp
  | _ => True
  end.

(** [deletes temp k]: if [k] deletes an application, it deletes [temp]. *)
Definition deletes (temp : string) (k : push.Call) : Prop :=
  match k with
  | push.Courier (push.CDelete n) => n = temp
  | _ => True
  end.

Definition count_calls (f : push.CourierCall -> bool) (l : list push.CourierCall) : nat :=
  length (List.filter f l).

(** ** The commit sequence in the words of the specification

    "If an app with the original name exists, unmap its load-balanced route
    (if a domain is configured), delete it, then rename the temp app to the
    original name.  If no original app exists, just rename."  A sequence of
    steps runs until the first step that fails. *)

Inductive Step : Type :=
| UnmapOriginal
| DeleteOriginal
| RenameTemp.

Definition Success_steps (d : DeploymentInfo.t) (originalExists : bool) : list Step :=
  if originalExists then
    (if String.eqb (DeploymentInfo.Domain d) "" then [] else [UnmapOriginal])
      ++ [DeleteOriginal; RenameTemp]
  else [RenameTemp].

Definition step_call (d : DeploymentInfo.t) (s : Step) : push.CourierCall :=
  match s with
  | UnmapOriginal =>
      push.CUnmapRoute (DeploymentInfo.AppName d) (DeploymentInfo.Domain d)
        (DeploymentInfo.AppName d)
  | DeleteOriginal => push.CDelete (DeploymentInfo.AppName d)
  | RenameTemp => push.CRename (temp_name d) (DeploymentInfo.AppName d)
  end.

Definition step_error (d : DeploymentInfo.t) (s : Step) (out : bytes) : error :=
  match s with
  | UnmapOriginal => UnmapRouteError (DeploymentInfo.AppName d) out
  | DeleteOriginal => DeleteApplicationError (DeploymentInfo.AppName d) out
  | RenameTemp => RenameError (temp_name d) out
  end.

Section Steps.
Context {X : Type}.
Variable cr : push.ICourier.t X.
Variable d : DeploymentInfo.t.

Definition step_command (s : Step) : M X (bytes * option error) :=
  match s with
  | UnmapOriginal =>
      push.ICourier.UnmapRoute cr (DeploymentInfo.AppName d) (DeploymentInfo.Domain d)
        (DeploymentInfo.AppName d)
  | DeleteOriginal => push.ICourier.Delete cr (DeploymentInfo.AppName d)
  | RenameTemp => push.ICourier.Rename cr (temp_name d) (DeploymentInfo.AppName d)
  end.

(** Runs the steps in order on the courier; stops at the first error and
    returns it.  The second component of the state lists the courier calls
    made so far. *)
Fixpoint run_steps (ss : list Step) : M (X * list push.CourierCall) (option error) :=
  match ss with
  | [] => ret None
  | s :: ss' =>
      fun st =>
        let '((out, err), x) := step_command s (fst st) in
        let st' := (x, snd st ++ [step_call d s]) in
        match err with
        | Some _ => (Some (step_error d s out), st')
        | None => run_steps ss' st'
        end
  end.

(** The commit: ask whether the original exists, then run the steps. *)
Definition Success_in_words : M (X * list push.CourierCall) (option error) :=
  fun st =>
    let (originalExists, x) :=
      push.ICourier.Exists cr (DeploymentInfo.AppName d) (fst st) in
    run_steps (Success_steps d originalExists)
      (x, snd st ++ [push.CExists (DeploymentInfo.AppName d)]).

End Steps.

(** ** A scripted courier

    A courier for concrete runs, in the manner of the repository's mocks: its
    state is the list of replies still to give; each call takes the next
    one.  A reply holds an output, an optional error and the answer to
    [Exists]. *)
Module scripted.

Definition Reply : Type := (bytes * option error * bool)%type.

Definition next : M (list Reply) Reply :=
  fun s => match s with
           | [] => (("", None, false), [])
           | r :: s' => (r, s')
           end.

Definition command : M (list Reply) (bytes * option error) :=
  fun s => let (r, s') := next s in (fst r, s').

Definition courier : push.ICourier.t (list Reply) :=
  push.ICourier.mk (list Reply)
    (fun _ _ _ _ _ _ => command)
    (fun _ _ _ _ => command)
    (fun _ => command)
    (fun _ _ _ => command)
    (fun _ _ _ => command)
    (fun _ => command)
    (fun _ _ => command)
    (fun _ s => let (r, s') := next s in (snd r, s'))
    (fun s => let (r, s') := next s in (snd (fst r), s')).

(** An event manager whose subscribers do nothing. *)
Definition quiet : push.IEventManager.t (list Reply) :=
  push.IEventManager.mk (list Reply)
    (fun _ _ s => (None, s))
    (fun _ s => (None, s)).

Definition info (domain : string) : DeploymentInfo.t :=
  DeploymentInfo.mk "org" "space" "app" "prod" "u1" domain false ∅
    "user" "secret" ∅ 2%N "" "".

Definition env (enableRollback : bool) : Environment.t :=
  Environment.mk "prod" "" ["https://api.f1"] false false enableRollback ∅.

Definition pusher (domain : string) (enableRollback : bool)
  : push.Pusher.t (list Reply) :=
  push.Pusher.mk (list Reply) courier (info domain) quiet "https://api.f1" "/tmp/app"
    (env enableRollback) (CFContext.mk "prod" "org" "space" "app")
    (Authorization.mk "user" "secret").

Definition world (script : list Reply) : push.World.t (list Reply) :=
  push.World.mk script "" [].

Definition ok (out : bytes) : Reply := (out, None, false).
Definition failed (out : bytes) (msg : string) : Reply := (out, Some (Opaque msg), false).
Definition found : Reply := ("", None, true).
Definition missing : Reply := ("", None, false).

Definition ErrorString (e : error) : string :=
  match e with Opaque msg => msg | _ => "error" end.

Definition Name (e : push.PushFinishedEvent.t) : string := "PushFinishedEvent".

(** The push fails, the logs are fetched. *)
Definition push_fails : push.World.t (list Reply) :=
  world [failed "push failed" "exit status 1"; ok "app logs"].

(** The push and the route mapping succeed. *)
Definition push_succeeds : push.World.t (list Reply) :=
  world [ok "pushed"; ok "mapped"].

(** The original exists; deleting the temporary application succeeds. *)
Definition rolled_back : push.World.t (list Reply) :=
  world [found; ok "deleted"].

(** The original exists; unmap, delete and rename succeed. *)
Definition original_exists : push.World.t (list Reply) :=
  world [found; ok "unmapped"; ok "deleted"; ok "renamed"].

End scripted.

(** ** Observations on runs of the stop controller *)

Section StopObservations.
Context {X : Type}.

(** What running [m] from [w] appends to the trace. *)
Definition stop_made {A : Type} (m : M (stop.World.t X) A) (w : stop.World.t X)
  : list stop.Call :=
  drop (length (stop.World.trace w)) (stop.World.trace (snd (m w))).

End StopObservations.

(** The events emitted in a trace, in order. *)
Definition events (tr : list stop.Call) : list stop.IEvent :=
  omap (fun k => match k with stop.EmitEvent e => Some e | _ => None end) tr.

(** The error-level logger calls in a trace, in order. *)
Definition logged_errors (tr : list stop.Call) : list LogCall :=
  omap (fun k => match k with
                 | stop.Log (Error e) => Some (Error e)
                 | stop.Log (Errorf f a) => Some (Errorf f a)
                 | _ => None
                 end) tr.

(** Whether the trace holds a call into the blue/green deployer or into the
    factory of its action creator. *)
Definition invokes_BlueGreen (k : stop.Call) : bool :=
  match k with
  | stop.Deploy _ _ | stop.StopManager _ => true
  | _ => false
  end.

(** Whether [k] carries the credentials [a]: in the envelope of an event, or
    in the [DeploymentInfo] handed to the deployer. *)
Definition carries (a : Authorization.t) (k : stop.Call) : Prop :=
  match k with
  | stop.EmitEvent (stop.StopStartedEvent v)
  | stop.EmitEvent (stop.StopFinishedEvent v)
  | stop.EmitEvent (stop.StopSuccessEvent v)
  | stop.EmitEvent (stop.StopFailureEvent v _) => stop.StopEvent.Authorization v = a
  | stop.Deploy d _
  | stop.StopManager (stop.DeployEventData.mk d) =>
      DeploymentInfo.Username d = Authorization.Username a /\
      DeploymentInfo.Password d = Authorization.Password a
  | _ => True
  end.

(** A found error with at least one detail line; [printErrors] panics on
    any other. *)
Definition has_detail (m : LogMatchedError.t) : bool :=
  match LogMatchedError.Details m with
  | [] => false
  | _ :: _ => true
  end.

(** The error the classifier leaves in the response: the first found error,
    or the original one when nothing was found. *)
Definition classified (found : list LogMatchedError.t) (original : error) : error :=
  match found with
  | [] => original
  | first :: _ => Matched first
  end.

(** The data map the controller works with: a nil map is replaced by an
    empty one. *)
Definition data_or_empty (data : option (gmap string any)) : gmap string any :=
  match data with
  | None => ∅
  | Some data => data
  end.

(** ** A small controller for concrete runs

    The state of the collaborators is trivial.  [emitResult] gives the
    error, if any, that the subscribers return for an event; [found] is
    what the error finder reports; [deployed] is the pointer that the
    deployer returns.  The only configured environment is ["prod"]. *)
Module demo.

Definition environment (authenticate : bool) : Environment.t :=
  Environment.mk "prod" "example.com" ["https://api.f1"] authenticate false true ∅.

Definition config (authenticate : bool) : stop.Config.t :=
  stop.Config.mk "admin" "hunter2" {[ "prod" := environment authenticate ]}.

Definition controller (authenticate : bool) (emitResult : stop.IEvent -> option error)
    (found : list LogMatchedError.t) (deployed : option stop.DeployResponse.t)
  : stop.StopController.t unit unit :=
  stop.StopController.mk unit unit
    (fun _ _ _ s => (deployed, (fst s, snd s +:+ "stopping app")))
    (stop.DeploymentLogger.mk "u1")
    (fun _ x => (tt, x))
    (config authenticate)
    (fun e s => (emitResult e, s))
    (fun _ x => (found, x)).

Definition deployment (username password : string) : stop.Deployment.t :=
  stop.Deployment.mk (CFContext.mk "prod" "org" "space" "app")
    (Authorization.mk username password).

Definition world : stop.World.t unit := stop.World.mk tt "" [].

Definition ErrorString (e : error) : string :=
  match e with
  | Opaque msg => msg
  | Matched m => LogMatchedError.Error m
  | BasicAuthError => "basic auth header not found"
  | _ => "error"
  end.

Definition Name (e : stop.IEvent) : string :=
  match e with
  | stop.StopStartedEvent _ => "StopStartedEvent"
  | stop.StopFinishedEvent _ => "StopFinishedEvent"
  | stop.StopSuccessEvent _ => "StopSuccessEvent"
  | stop.StopFailureEvent _ _ => "StopFailureEvent"
  end.

Definition quiet (e : stop.IEvent) : option error := None.

Definition fails_on_started (e : stop.IEvent) : option error :=
  match e with
  | stop.StopStartedEvent _ => Some (Opaque "subscriber refused")
  | _ => None
  end.

Definition fails_on_finished (e : stop.IEvent) : option error :=
  match e with
  | stop.StopFinishedEvent _ => Some (Opaque "finish handler failed")
  | _ => None
  end.

Definition fails_on_outcome (e : stop.IEvent) : option error :=
  match e with
  | stop.StopSuccessEvent _ | stop.StopFailureEvent _ _ => Some (Opaque "outcome handler failed")
  | _ => None
  end.

Definition stopped : stop.DeployResponse.t :=
  stop.DeployResponse.mk 200 None None.

Definition oom : LogMatchedError.t :=
  LogMatchedError.mk "out of memory" ["exit status 137"] "raise the memory limit".

Definition envelope (authenticate : bool) (auth : Authorization.t) : stop.StopEvent.t :=
  stop.StopEvent.mk (CFContext.mk "prod" "org" "space" "app") auth
    (environment authenticate) ∅ (stop.DeploymentLogger.mk "u1").

Definition defaults : Authorization.t := Authorization.mk "admin" "hunter2".

(** The subscribers of StopStarted refuse; the transcript holds a known
    error. *)
Definition refusing : stop.StopController.t unit unit :=
  controller false fails_on_started [oom] (Some stopped).

(** The subscribers of StopSuccess and StopFailure fail. *)
Definition outcome_failing : stop.StopController.t unit unit :=
  controller false fails_on_outcome [] (Some stopped).

(** Nothing fails. *)
Definition calm (authenticate : bool) : stop.StopController.t unit unit :=
  controller authenticate quiet [] (Some stopped).

Definition run (authenticate : bool) (emitResult : stop.IEvent -> option error)
    (found : list LogMatchedError.t) (deployed : option stop.DeployResponse.t)
    (username password : string)
  : Outcome stop.DeployResponse.t * stop.World.t unit :=
  stop.StopDeployment ErrorString Name (controller authenticate emitResult found deployed)
    (deployment username password) None world.

End demo.

(** ** Further observations *)

(** The [DeploymentInfo] that [StopDeployment] hands to the deployer. *)
Definition stop_deploymentInfo (log : stop.DeploymentLogger.t) (cf : CFContext.t)
    (environment : Environment.t) (auth : Authorization.t) (data : gmap string any)
  : DeploymentInfo.t :=
  DeploymentInfo.mk (CFContext.Organization cf) (CFContext.Space cf)
    (CFContext.Application cf) (CFContext.Environment cf)
    (stop.DeploymentLogger.UUID log)
    (Environment.Domain environment) (Environment.SkipSSL environment)
    (Environment.CustomParams environment)
    (Authorization.Username auth) (Authorization.Password auth)
    data 0%N "" "".

(** The calls into the deployer and its factory in a trace, in order. *)
Definition deployer_calls (tr : list stop.Call) : list stop.Call :=
  List.filter invokes_BlueGreen tr.

(** The outcome event that goes with a returned response. *)
Definition outcome_event (v : stop.StopEvent.t) (resp : stop.DeployResponse.t)
  : stop.IEvent :=
  match stop.DeployResponse.Error resp with
  | None => stop.StopSuccessEvent v
  | Some err => stop.StopFailureEvent v err
  end.

(** The event emissions of [Pusher] in a trace, in order. *)
Definition emissions (tr : list push.Call) : list push.Call :=
  List.filter (fun k => match k with
                        | push.Emit _ _ | push.EmitEvent _ => true
                        | _ => false
                        end) tr.

(** The events that a successful [Execute] of [p] emits. *)
Definition PushFinished_events {X : Type} (C_PushFinishedEvent : string)
    (p : push.Pusher.t X) : list push.Call :=
  [push.Emit C_PushFinishedEvent
     (push.PushEventData.mk (push.Pusher.AppPath p) (push.Pusher.FoundationURL p)
        (temp_name (push.Pusher.DeploymentInfo p)) (push.Pusher.DeploymentInfo p));
   push.EmitEvent
     (push.PushFinishedEvent.mk (push.Pusher.CFContext p) (push.Pusher.Auth p)
        (push.Pusher.AppPath p) (push.Pusher.FoundationURL p)
        (temp_name (push.Pusher.DeploymentInfo p))
        (DeploymentInfo.Data (push.Pusher.DeploymentInfo p))
        (DeploymentInfo.Manifest (push.Pusher.DeploymentInfo p))
        (DeploymentInfo.HealthCheckEndpoint (push.Pusher.DeploymentInfo p)))].

(** Runs [Create] once per call in [calls], in order; collects the
    outcomes. *)
Fixpoint Create_all {Action RW : Type} (calls : list (DeploymentInfo.t * RW))
  : M (mocks.StopperCreator.t Action RW) (list (Outcome (Action * option error))) :=
  match calls with
  | [] => ret []
  | (d, r) :: calls' =>
      let* o := mocks.Create d (CFContext.mk "" "" "" "") Authorization.zero r "" "" in
      let* os := Create_all calls' in
      ret (o :: os)
  end.

(** Further concrete runs. *)
Module demo2.

(** The deployer reports a failure; the transcript holds a known error. *)
Definition failed : stop.DeployResponse.t :=
  stop.DeployResponse.mk 502 None (Some (Opaque "stop failed")).

Definition failing : stop.StopController.t unit unit :=
  demo.controller false demo.quiet [demo.oom] (Some failed).

(** The deployer returns a nil pointer. *)
Definition nil_deployer : stop.StopController.t unit unit :=
  demo.controller false demo.quiet [] None.

(** A found error without detail line. *)
Definition bare : LogMatchedError.t :=
  LogMatchedError.mk "unknown failure" [] "none".

Definition transcript : stop.World.t unit :=
  stop.World.mk tt "pushing... out of memory" [].

Definition finder (found : list LogMatchedError.t) : stop.StopController.t unit unit :=
  demo.controller false demo.quiet found (Some demo.stopped).

(** The login is refused. *)
Definition login_refused : push.World.t (list scripted.Reply) :=
  scripted.world [scripted.failed "bad credentials" "exit status 1"].

(** The push succeeds, the route mapping fails. *)
Definition map_fails : push.World.t (list scripted.Reply) :=
  scripted.world [scripted.ok "pushed"; scripted.failed "no such domain" "exit status 1"].

(** The original exists, deleting the temporary application fails. *)
Definition delete_fails : push.World.t (list scripted.Reply) :=
  scripted.world [scripted.found; scripted.failed "not found" "exit status 1"].

(** An event manager whose subscribers of the named event refuse. *)
Definition refusing_named : push.IEventManager.t (list scripted.Reply) :=
  push.IEventManager.mk (list scripted.Reply)
    (fun _ _ s => (Some (Opaque "listener failed"), s))
    (fun _ s => (None, s)).

Definition pusher_refused : push.Pusher.t (list scripted.Reply) :=
  push.Pusher.mk (list scripted.Reply) scripted.courier (scripted.info "example.com")
    refusing_named "https://api.f1" "/tmp/app" (scripted.env true)
    (CFContext.mk "prod" "org" "space" "app") (Authorization.mk "user" "secret").

(** A request for an environment that is not configured. *)
Definition stranger : stop.Deployment.t :=
  stop.Deployment.mk (CFContext.mk "staging" "org" "space" "app")
    (Authorization.mk "" "").

(** Two calls of the stopper creator. *)
Definition two_calls : list (DeploymentInfo.t * nat) :=
  [(scripted.info "", 1); (scripted.info "example.com", 2)].

(** A stopper creator scripted with two stoppers. *)
Definition creator : mocks.StopperCreator.t string nat :=
  mocks.StopperCreator.mk 0 [] ["stopper A"; "stopper B"] [None; Some (Opaque "no stopper")].

End demo2.

(** * Properties of the push action *)

(** ** Strings and traces *)

Local Open Scope list_scope.

Lemma append_empty_r (s : string) : s +:+ "" = s.
Proof.
  induction s as [|a s IH]; [reflexivity |].
  change (String a s +:+ "") with (String a (s +:+ "")). now rewrite IH.
Qed.

Lemma length_append (s t : string) :
  String.length (s +:+ t) = String.length s + String.length t.
Proof.
  induction s as [|a s IH]; [reflexivity |].
  change (String a s +:+ t) with (String a (s +:+ t)). cbn [String.length].
  now rewrite IH.
Qed.

(** The temporary name is never the original name. *)
Lemma temp_name_fresh (d : DeploymentInfo.t) : temp_name d <> DeploymentInfo.AppName d.
Proof.
  unfold temp_name. intros E. apply (f_equal String.length) in E.
  rewrite !length_append in E. simpl in E. lia.
Qed.

Lemma drop_own_length {A : Type} (l k : list A) : drop (length l) (l ++ k) = k.
Proof. induction l as [|a l IH]; simpl; [now destruct k | exact IH]. Qed.

(** Unfolds a method of [Pusher] down to the calls of its collaborators. *)
Ltac push_unfold :=
  unfold courier_made, made,
    push.Undo, push.Execute, push.Success, push.Initially, push.Verify, push.Finally,
    push.pushApplication, push.pushApplication_body,
    push.mapTempAppToLoadBalancedDomain, push.unMapLoadBalancedRoute,
    push.deleteApplication, push.renameNewBuildToOriginalAppName,
    push.courier, push.log, push.Write, push.emit, bind, ret.

(** Brings the trace of a finished run into the form [old ++ new] and reads
    off [new]. *)
Ltac read_trace :=
  cbn [snd fst push.World.trace push.World.ext push.World.response];
  rewrite <- ?app_assoc;
  rewrite ?drop_own_length, ?drop_all;
  cbn [app courier_calls omap list_omap].

(** Follows every branch of a run. *)
Ltac run_step :=
  cbn [push.World.ext push.World.response push.World.trace negb fst snd];
  match goal with
  | |- context [match ?e with _ => _ end] =>
      lazymatch e with
      | context [match _ with _ => _ end] => fail
      | _ => destruct e
      end
  end.

Ltac run_all := repeat run_step.

Section PushProperties.
Context {X : Type}.
Variable ErrorString : error -> string.
Variable C_PushFinishedEvent : string.
Variable Name : push.PushFinishedEvent.t -> string.

(** C7. [pushApplication] always writes the courier's push output to the
    response; when the push fails it fetches the application's logs and
    writes them after the push output, and returns a [PushError], or a
    [CloudFoundryGetLogsError] holding both errors when the logs could not be
    fetched. *)
Theorem pushApplication_writes_output (p : push.Pusher.t X) (appName appPath : string)
    (w : push.World.t X) (pushOutput : bytes) (err : option error) (x1 : X) :
  push.ICourier.Push (push.Pusher.Courier p) appName appPath
    (DeploymentInfo.AppName (push.Pusher.DeploymentInfo p))
    (DeploymentInfo.Instances (push.Pusher.DeploymentInfo p))
    (push.World.ext w) = ((pushOutput, err), x1) ->
  let r := push.pushApplication p appName appPath w in
  match err with
  | None =>
      fst r = None /\
      push.World.response (snd r) = push.World.response w +:+ pushOutput /\
      push.World.ext (snd r) = x1 /\
      courier_made (push.pushApplication p appName appPath) w =
        [push.CPush appName appPath
           (DeploymentInfo.AppName (push.Pusher.DeploymentInfo p))
           (DeploymentInfo.Instances (push.Pusher.DeploymentInfo p))]
  | Some pushErr =>
      forall (cloudFoundryLogs : bytes) (logsErr : option error) (x2 : X),
      push.ICourier.Logs (push.Pusher.Courier p) appName x1 =
        ((cloudFoundryLogs, logsErr), x2) ->
      fst r = Some (match logsErr with
                    | Some e => CloudFoundryGetLogsError pushErr e
                    | None => PushError
                    end) /\
      push.World.response (snd r) =
        (push.World.response w +:+ pushOutput) +:+ cloudFoundryLogs /\
      push.World.ext (snd r) = x2 /\
      courier_made (push.pushApplication p appName appPath) w =
        [push.CPush appName appPath
           (DeploymentInfo.AppName (push.Pusher.DeploymentInfo p))
           (DeploymentInfo.Instances (push.Pusher.DeploymentInfo p));
         push.CLogs appName]
  end.
Proof.
  intros HPush r. subst r. destruct err as [pushErr|].
  - intros logs logsErr x2 HLogs.
    push_unfold. cbn [push.World.ext]. rewrite HPush. cbn [push.World.ext].
    rewrite HLogs. destruct logsErr; read_trace; auto.
  - push_unfold. cbn [push.World.ext]. rewrite HPush. read_trace.
    rewrite append_empty_r. auto.
Qed.

(** C4. [Success] is the commit sequence of the specification: when the
    original application exists it unmaps the load-balanced route (only
    with a domain configured), deletes the original and renames the
    temporary application; otherwise it only renames.  It stops at the
    first failing step and returns that step's error.  It writes nothing to
    the response. *)
Theorem Success_commit_sequence (p : push.Pusher.t X) (w : push.World.t X) :
  let r := push.Success ErrorString p w in
  Success_in_words (push.Pusher.Courier p) (push.Pusher.DeploymentInfo p)
    (push.World.ext w, []) =
    (fst r, (push.World.ext (snd r), courier_made (push.Success ErrorString p) w)) /\
  push.World.response (snd r) = push.World.response w.
Proof.
  cbv zeta. unfold Success_in_words, Success_steps. cbn [fst snd].
  push_unfold. cbn [push.World.ext].
  destruct (push.ICourier.Exists _ _ _) as [[|] x1]; cbn [run_steps step_command fst snd app].
  - destruct (String.eqb _ "") eqn:Hd; cbn [negb app run_steps step_command fst snd].
    + cbn [push.World.ext].
      destruct (push.ICourier.Delete _ _ _) as [[dout [derr|]] x2];
        cbn [push.World.ext]; [read_trace; auto|].
      unfold temp_name, push.TemporaryNameSuffix.
      destruct (push.ICourier.Rename _ _ _ _) as [[rout [rerr|]] x3];
        read_trace; auto.
    + cbn [push.World.ext].
      destruct (push.ICourier.UnmapRoute _ _ _ _ _) as [[uout [uerr|]] x2];
        cbn [push.World.ext]; [read_trace; auto|].
      destruct (push.ICourier.Delete _ _ _) as [[dout [derr|]] x3];
        cbn [push.World.ext]; [read_trace; auto|].
      unfold temp_name, push.TemporaryNameSuffix.
      destruct (push.ICourier.Rename _ _ _ _) as [[rout [rerr|]] x4];
        read_trace; auto.
  - cbn [push.World.ext]. unfold temp_name, push.TemporaryNameSuffix.
    destruct (push.ICourier.Rename _ _ _ _) as [[rout [rerr|]] x2];
      read_trace; auto.
Qed.

(** C3. [Undo] with rollback disabled is [Success] (after one log entry) and
    never deletes the temporary application.  With rollback enabled it asks
    whether the original exists; if so it deletes the temporary application
    and touches nothing else, otherwise it renames the temporary application
    to the original name. *)
Theorem Undo_rollback_policy (p : push.Pusher.t X) (w : push.World.t X) :
  let d := push.Pusher.DeploymentInfo p in
  let app := DeploymentInfo.AppName d in
  if Environment.EnableRollback (push.Pusher.Environment p) then
    courier_made (push.Undo ErrorString p) w =
      if fst (push.ICourier.Exists (push.Pusher.Courier p) app (push.World.ext w))
      then [push.CExists app; push.CDelete (temp_name d)]
      else [push.CExists app; push.CRename (temp_name d) app]
  else
    push.Undo ErrorString p w =
      push.Success ErrorString p
        (snd (push.log (Errorf
           "Failed to deploy, deployment not rolled back due to EnableRollback=false" [])
           w)) /\
    push.CDelete (temp_name d) ∉ courier_made (push.Undo ErrorString p) w.
Proof.
  cbv zeta. destruct (Environment.EnableRollback _) eqn:HR.
  - push_unfold. rewrite HR. cbn [negb push.World.ext].
    unfold temp_name, push.TemporaryNameSuffix.
    destruct (push.ICourier.Exists _ _ _) as [[|] x1]; cbn [fst];
      run_all; read_trace; reflexivity.
  - split.
    + unfold push.Undo. rewrite HR. reflexivity.
    + pose proof (temp_name_fresh (push.Pusher.DeploymentInfo p)) as Hfresh.
      push_unfold. rewrite HR. run_all; read_trace; intros Hin;
        repeat (apply elem_of_cons in Hin as [Hin|Hin]);
        try discriminate Hin; try (injection Hin as Hin; exact (Hfresh Hin));
        try (symmetry in Hin; injection Hin as Hin; exact (Hfresh (eq_sym Hin)));
        exact (proj1 (elem_of_nil _) Hin).
Qed.

(** C5. Without a domain no phase of [Pusher] calls [MapRoute] or
    [UnmapRoute].  With a domain, [Execute] calls [MapRoute] exactly once
    when it succeeds (and at most once when it fails), and [Success] calls
    [UnmapRoute] exactly once when the original application exists (and not
    at all otherwise). *)
Theorem route_calls_follow_domain (p : push.Pusher.t X) (w : push.World.t X) :
  let d := push.Pusher.DeploymentInfo p in
  let routes := fun l => count_calls is_MapRoute l + count_calls is_UnmapRoute l in
  (DeploymentInfo.Domain d = "" ->
     routes (courier_made (push.Initially p) w) = 0 /\
     routes (courier_made (push.Verify (X:=X)) w) = 0 /\
     routes (courier_made (push.Execute C_PushFinishedEvent Name p) w) = 0 /\
     routes (courier_made (push.Success ErrorString p) w) = 0 /\
     routes (courier_made (push.Undo ErrorString p) w) = 0 /\
     routes (courier_made (push.Finally p) w) = 0) /\
  (DeploymentInfo.Domain d <> "" ->
     match fst (push.Execute C_PushFinishedEvent Name p w) with
     | None =>
         count_calls is_MapRoute
           (courier_made (push.Execute C_PushFinishedEvent Name p) w) = 1
     | Some _ =>
         count_calls is_MapRoute
           (courier_made (push.Execute C_PushFinishedEvent Name p) w) <= 1
     end /\
     count_calls is_UnmapRoute (courier_made (push.Success ErrorString p) w) =
       if fst (push.ICourier.Exists (push.Pusher.Courier p) (DeploymentInfo.AppName d)
                 (push.World.ext w))
       then 1 else 0).
Proof.
  cbv zeta. split.
  - intros Hd. push_unfold. rewrite Hd. cbn [String.eqb negb].
    repeat split; run_all; read_trace; reflexivity.
  - intros Hd. apply String.eqb_neq in Hd. push_unfold. rewrite Hd. cbn [negb].
    split.
    + run_all; read_trace; cbn; try reflexivity; try lia; try discriminate.
    + run_all; read_trace; cbn in *; try reflexivity; try discriminate.
Qed.

(** C6. The phases of [Pusher] name the temporary application
    [AppName ++ "-new-build-" ++ UUID], a function of the [DeploymentInfo]
    alone, so every pusher of the deployment, on whatever foundation and in
    whatever state, uses the same string.  [Execute] always pushes under
    that name, and maps a route to it when the push succeeded and a domain
    is configured; [Success], and [Undo] without rollback, rename it to the
    original name as their last courier call unless the unmap or the delete
    failed; [Undo] with rollback deletes it when the original exists and
    renames it otherwise.  No push, logs, route mapping, rename or event of
    these phases, and no delete of [Undo] with rollback, names anything
    else. *)
Theorem temporary_name_everywhere (d : DeploymentInfo.t) (p : push.Pusher.t X)
    (w : push.World.t X) :
  push.Pusher.DeploymentInfo p = d ->
  let temp := temp_name d in
  let app := DeploymentInfo.AppName d in
  let renamed_last := fun (r : option error) (calls : list push.CourierCall) =>
    match r with
    | None => last calls = Some (push.CRename temp app)
    | Some (RenameError n _) => n = temp /\ last calls = Some (push.CRename temp app)
    | Some _ => True
    end in
  Forall (names temp) (made (push.Execute C_PushFinishedEvent Name p) w) /\
  Forall (names temp) (made (push.Success ErrorString p) w) /\
  Forall (names temp) (made (push.Undo ErrorString p) w) /\
  (Environment.EnableRollback (push.Pusher.Environment p) = true ->
   Forall (deletes temp) (made (push.Undo ErrorString p) w)) /\
  head (courier_made (push.Execute C_PushFinishedEvent Name p) w) =
    Some (push.CPush temp (push.Pusher.AppPath p) app (DeploymentInfo.Instances d)) /\
  (forall (pushOutput : bytes) (x1 : X),
     push.ICourier.Push (push.Pusher.Courier p) temp (push.Pusher.AppPath p) app
       (DeploymentInfo.Instances d) (push.World.ext w) = ((pushOutput, None), x1) ->
     DeploymentInfo.Domain d <> "" ->
     courier_made (push.Execute C_PushFinishedEvent Name p) w =
       [push.CPush temp (push.Pusher.AppPath p) app (DeploymentInfo.Instances d);
        push.CMapRoute temp (DeploymentInfo.Domain d) app]) /\
  renamed_last (fst (push.Success ErrorString p w))
    (courier_made (push.Success ErrorString p) w) /\
  (fst (push.ICourier.Exists (push.Pusher.Courier p) app (push.World.ext w)) = false ->
   courier_made (push.Success ErrorString p) w =
     [push.CExists app; push.CRename temp app]) /\
  (Environment.EnableRollback (push.Pusher.Environment p) = true ->
   courier_made (push.Undo ErrorString p) w =
     [push.CExists app;
      if fst (push.ICourier.Exists (push.Pusher.Courier p) app (push.World.ext w))
      then push.CDelete temp
      else push.CRename temp app]) /\
  (Environment.EnableRollback (push.Pusher.Environment p) = false ->
   renamed_last (fst (push.Undo ErrorString p w))
     (courier_made (push.Undo ErrorString p) w)).
Proof.
  intros <-. cbv zeta. unfold temp_name.
  split; [|split; [|split; [|split; [|split; [|split; [|split; [|split; [|split]]]]]]]].
  - push_unfold; unfold push.TemporaryNameSuffix; run_all; read_trace;
      repeat constructor.
  - push_unfold; unfold push.TemporaryNameSuffix; run_all; read_trace;
      repeat constructor.
  - push_unfold; unfold push.TemporaryNameSuffix; run_all; read_trace;
      repeat constructor.
  - intros HR. push_unfold; unfold push.TemporaryNameSuffix. rewrite HR.
    run_all; read_trace; repeat constructor.
  - push_unfold; unfold push.TemporaryNameSuffix; run_all; read_trace; reflexivity.
  - intros pushOutput x1 HPush Hd. apply String.eqb_neq in Hd.
    push_unfold; unfold push.TemporaryNameSuffix. cbn [push.World.ext].
    rewrite HPush, Hd. run_all; read_trace; reflexivity.
  - push_unfold; unfold push.TemporaryNameSuffix; run_all; read_trace;
      cbn [last]; auto.
  - push_unfold; unfold push.TemporaryNameSuffix. cbn [push.World.ext].
    destruct (push.ICourier.Exists _ _ _) as [[|] x1]; cbn [fst];
      [discriminate|]. intros _. run_all; read_trace; reflexivity.
  - intros HR. push_unfold; unfold push.TemporaryNameSuffix. rewrite HR.
    cbn [negb push.World.ext].
    destruct (push.ICourier.Exists _ _ _) as [[|] x1]; cbn [fst];
      run_all; read_trace; reflexivity.
  - intros HR. push_unfold; unfold push.TemporaryNameSuffix. rewrite HR.
    run_all; read_trace; cbn [last]; auto.
Qed.

End PushProperties.

(** ** Concrete runs of the push action *)

(** Scenario 2 of the specification, commit part: with a domain and an
    existing original, [Success] asks, unmaps, deletes and renames. *)
Example Success_existing_deploy :
  courier_made (push.Success scripted.ErrorString (scripted.pusher "example.com" true))
    scripted.original_exists =
  [push.CExists "app"; push.CUnmapRoute "app" "example.com" "app";
   push.CDelete "app"; push.CRename "app-new-build-u1" "app"].
Proof. reflexivity. Qed.

(** Scenario 3 of the specification, rollback part: the original exists, so
    [Undo] deletes the temporary application. *)
Example Undo_existing_deploy :
  courier_made (push.Undo scripted.ErrorString (scripted.pusher "" true))
    (scripted.world [scripted.found; scripted.ok "deleted"]) =
  [push.CExists "app"; push.CDelete "app-new-build-u1"].
Proof. reflexivity. Qed.

Lemma pushApplication_writes_output_witness :
  fst (push.pushApplication (scripted.pusher "" true) "app-new-build-u1" "/tmp/app"
         scripted.push_fails) = Some PushError /\
  push.World.response
    (snd (push.pushApplication (scripted.pusher "" true) "app-new-build-u1" "/tmp/app"
            scripted.push_fails)) = ("" +:+ "push failed") +:+ "app logs" /\
  push.World.ext
    (snd (push.pushApplication (scripted.pusher "" true) "app-new-build-u1" "/tmp/app"
            scripted.push_fails)) = [] /\
  courier_made (push.pushApplication (scripted.pusher "" true) "app-new-build-u1" "/tmp/app")
    scripted.push_fails =
  [push.CPush "app-new-build-u1" "/tmp/app" "app" 2; push.CLogs "app-new-build-u1"].
Proof.
  exact (pushApplication_writes_output (scripted.pusher "" true) "app-new-build-u1"
           "/tmp/app" scripted.push_fails "push failed" (Some (Opaque "exit status 1"))
           [scripted.ok "app logs"] eq_refl "app logs" None [] eq_refl).
Defined.

Lemma route_calls_follow_domain_witness :
  (count_calls is_MapRoute
     (courier_made (push.Execute "push.finished" scripted.Name (scripted.pusher "" true))
        scripted.push_succeeds) +
   count_calls is_UnmapRoute
     (courier_made (push.Execute "push.finished" scripted.Name (scripted.pusher "" true))
        scripted.push_succeeds) = 0) /\
  count_calls is_MapRoute
    (courier_made (push.Execute "push.finished" scripted.Name
                     (scripted.pusher "example.com" true))
       scripted.push_succeeds) = 1 /\
  count_calls is_UnmapRoute
    (courier_made (push.Success scripted.ErrorString (scripted.pusher "example.com" true))
       scripted.original_exists) = 1.
Proof.
  split; [|split].
  - exact (proj1 (proj2 (proj2
             (proj1 (route_calls_follow_domain scripted.ErrorString "push.finished"
                       scripted.Name (scripted.pusher "" true) scripted.push_succeeds)
                eq_refl)))).
  - exact (proj1
             (proj2 (route_calls_follow_domain scripted.ErrorString "push.finished"
                       scripted.Name (scripted.pusher "example.com" true)
                       scripted.push_succeeds)
                ltac:(discriminate))).
  - exact (proj2
             (proj2 (route_calls_follow_domain scripted.ErrorString "push.finished"
                       scripted.Name (scripted.pusher "example.com" true)
                       scripted.original_exists)
                ltac:(discriminate))).
Defined.

Lemma temporary_name_everywhere_witness :
  (Forall (names "app-new-build-u1")
     (made (push.Execute "push.finished" scripted.Name (scripted.pusher "example.com" true))
        scripted.push_succeeds) /\
   courier_made (push.Execute "push.finished" scripted.Name
                   (scripted.pusher "example.com" true)) scripted.push_succeeds =
     [push.CPush "app-new-build-u1" "/tmp/app" "app" 2;
      push.CMapRoute "app-new-build-u1" "example.com" "app"]) /\
  (Forall (names "app-new-build-u1")
     (made (push.Success scripted.ErrorString (scripted.pusher "example.com" true))
        scripted.original_exists) /\
   last (courier_made (push.Success scripted.ErrorString
                         (scripted.pusher "example.com" true))
           scripted.original_exists) =
     Some (push.CRename "app-new-build-u1" "app")) /\
  (Forall (deletes "app-new-build-u1")
     (made (push.Undo scripted.ErrorString (scripted.pusher "example.com" true))
        scripted.rolled_back) /\
   courier_made (push.Undo scripted.ErrorString (scripted.pusher "example.com" true))
     scripted.rolled_back =
     [push.CExists "app"; push.CDelete "app-new-build-u1"]).
Proof.
  split; [|split].
  - pose proof (temporary_name_everywhere scripted.ErrorString "push.finished"
                  scripted.Name (scripted.info "example.com")
                  (scripted.pusher "example.com" true) scripted.push_succeeds eq_refl)
      as (HE & _ & _ & _ & _ & HMap & _).
    split; [exact HE|].
    apply (HMap "pushed" [scripted.ok "mapped"]); [reflexivity | discriminate].
  - pose proof (temporary_name_everywhere scripted.ErrorString "push.finished"
                  scripted.Name (scripted.info "example.com")
                  (scripted.pusher "example.com" true) scripted.original_exists eq_refl)
      as (_ & HS & _ & _ & _ & _ & HLast & _).
    split; [exact HS | exact HLast].
  - pose proof (temporary_name_everywhere scripted.ErrorString "push.finished"
                  scripted.Name (scripted.info "example.com")
                  (scripted.pusher "example.com" true) scripted.rolled_back eq_refl)
      as (_ & _ & _ & HD & _ & _ & _ & _ & HU & _).
    split; [exact (HD eq_refl) | exact (HU eq_refl)].
Defined.

(** * Properties of the stop controller *)

(** Unfolds [StopDeployment] down to the calls of its collaborators, the
    loop of [printErrors] and [resolveAuthorization] excepted. *)
Ltac stop_unfold :=
  unfold stop_made, stop.StopDeployment, stop.StopDeployment_body,
    stop.emitStopSuccessOrFailure, stop.emitStopFinish,
    stop.emitStopSuccessOrFailure_emit, stop.printErrors,
    stop.call, stop.call_rw, stop.log, stop.Write, stop.ReadFrom, bind, ret.

Ltac stop_cbn :=
  cbn [fst snd negb andb forallb classified stop.World.ext stop.World.response stop.World.trace
       stop.StopController.Deploy stop.StopController.Log
       stop.StopController.StopManager stop.StopController.Config
       stop.StopController.EmitEvent stop.StopController.FindErrors
       stop.DeployResponse.StatusCode stop.DeployResponse.DeploymentInfo
       stop.DeployResponse.Error stop.DeployResponse.zero].

Ltac read_stop_trace :=
  stop_cbn;
  rewrite <- ?app_assoc;
  rewrite ?drop_own_length, ?drop_all;
  cbn [app events logged_errors omap list_omap existsb invokes_BlueGreen orb last].

Section StopProperties.
Context {X AC : Type}.
Variable ErrorString : error -> string.
Variable Name : stop.IEvent -> string.

(** The loop of [printErrors] only writes to the response; it returns
    unless a found error has no detail line. *)
Lemma printErrors_loop_runs (errors : list LogMatchedError.t) (w : stop.World.t X) :
  exists resp : bytes,
    stop.printErrors_loop errors w =
      (if forallb has_detail errors then Returned tt else Panicked,
       stop.World.mk (stop.World.ext w) resp (stop.World.trace w)).
Proof.
  revert w. induction errors as [|m errors IH]; intros w.
  - exists (stop.World.response w). destruct w; reflexivity.
  - cbn [stop.printErrors_loop forallb]. unfold has_detail at 1.
    unfold bind, stop.Write.
    destruct (LogMatchedError.Details m) as [|detail details]; cbn [andb].
    + eexists. reflexivity.
    + cbn [stop.World.ext stop.World.response stop.World.trace].
      match goal with |- context [stop.printErrors_loop errors ?W] =>
        destruct (IH W) as [resp ->] end.
      exists resp. reflexivity.
Qed.

(** [resolveAuthorization] decides from its arguments alone; on the world it
    only logs. *)
Lemma resolveAuthorization_any (c : stop.StopController.t X AC) (auth : Authorization.t)
    (envs : Environment.t) (w w0 : stop.World.t X) :
  stop.resolveAuthorization c auth envs w =
    (fst (stop.resolveAuthorization c auth envs w0),
     stop.World.mk (stop.World.ext w) (stop.World.response w)
       (stop.World.trace w ++ [stop.Log (Debug "checking for basic auth")])).
Proof.
  unfold stop.resolveAuthorization, bind, ret, stop.log.
  destruct (_ && _); [destruct (Environment.Authenticate envs)|]; reflexivity.
Qed.

End StopProperties.

(** One step of a run of the controller: uses what is known of a
    collaborator's answer, replaces the loop of [printErrors] by its
    outcome, or follows both branches of the innermost case. *)
Ltac stop_step :=
  stop_cbn;
  first
    [ match goal with
      | H : ?l = _ |- context [match ?l with _ => _ end] => rewrite H
      end
    | match goal with
      | |- context [stop.printErrors_loop ?l ?W] =>
          let H := fresh in
          destruct (printErrors_loop_runs l W) as [? H]; rewrite H; clear H
      end
    | match goal with
      | |- context [stop.StopController.FindErrors ?c ?s ?x] =>
          destruct (stop.StopController.FindErrors c s x) as [[|? ?] ?]
      | |- context [stop.StopController.EmitEvent ?c ?e ?s] =>
          destruct (stop.StopController.EmitEvent c e s) as [[?|] [? ?]]
      | |- context [stop.StopController.StopManager ?c ?d ?x] =>
          destruct (stop.StopController.StopManager c d x) as [? ?]
      | |- context [stop.StopController.Deploy ?c ?d ?e ?m ?s] =>
          destruct (stop.StopController.Deploy c d e m s) as [[[? ? [?|]]|] [? ?]]
      end
    | match goal with
      | |- context [match ?e with _ => _ end] =>
          lazymatch e with
          | context [match _ with _ => _ end] => fail
          | _ => destruct e
          end
      end ].

Ltac stop_run := repeat stop_step.

Section StopClaims.
Context {X AC : Type}.
Variable ErrorString : error -> string.
Variable Name : stop.IEvent -> string.

(** C1 (amended). When the subscribers of the StopStarted event return an
    error, [StopDeployment] never reaches the deployer, still emits
    StopFinished as its last event, and, unless a found error without detail
    line makes the classifier panic, returns status 500 with the error
    [EventError "StopStartedEvent"] wrapping an [InitializationError]
    wrapping the subscribers' error, or the first error the classifier
    found in the transcript. *)
Theorem started_failure_aborts (c : stop.StopController.t X AC)
    (deployment : stop.Deployment.t) (data : option (gmap string any))
    (w : stop.World.t X) (environment : Environment.t) (auth : Authorization.t)
    (e : error) (x1 : X) (resp1 : bytes) :
  let cf := stop.Deployment.CFContext deployment in
  let v := stop.StopEvent.mk cf auth environment (data_or_empty data)
             (stop.StopController.Log c) in
  stop.resolveEnvironment c (CFContext.Environment cf) = inl environment ->
  fst (stop.resolveAuthorization c (stop.Deployment.Authorization deployment)
         environment w) = (auth, None) ->
  stop.StopController.EmitEvent c (stop.StopStartedEvent v)
    (stop.World.ext w, stop.World.response w) = (Some e, (x1, resp1)) ->
  let r := stop.StopDeployment ErrorString Name c deployment data w in
  let tr := stop_made (stop.StopDeployment ErrorString Name c deployment data) w in
  let found := fst (stop.StopController.FindErrors c resp1 x1) in
  existsb invokes_BlueGreen tr = false /\
  last (events tr) = Some (stop.StopFinishedEvent v) /\
  if forallb has_detail found then
    exists resp : stop.DeployResponse.t,
      fst r = Returned resp /\
      stop.DeployResponse.StatusCode resp = 500%Z /\
      stop.DeployResponse.Error resp =
        Some (classified found
                (EventError "StopStartedEvent" (InitializationError e)))
  else fst r = Panicked.
Proof.
  intros cf v HEnv HAuth HStarted. subst cf v. cbv zeta.
  unfold data_or_empty in *. stop_unfold. rewrite HEnv.
  stop_cbn. rewrite (resolveAuthorization_any _ _ _ _ w), HAuth.
  stop_cbn. rewrite HStarted.
  stop_run; read_stop_trace; repeat split; eauto.
Qed.


(** C8. A request without username and password: when the resolved
    environment requires authentication the call returns status 401 with a
    [BasicAuthError] and emits no event at all; otherwise the username and
    password of the configuration are resolved, and they are the
    credentials of the StopStarted event and of every event and deployer
    call of the run. *)
Theorem missing_credentials (c : stop.StopController.t X AC)
    (deployment : stop.Deployment.t) (data : option (gmap string any))
    (w : stop.World.t X) (environment : Environment.t) :
  let cf := stop.Deployment.CFContext deployment in
  let default := Authorization.mk (stop.Config.Username (stop.StopController.Config c))
                   (stop.Config.Password (stop.StopController.Config c)) in
  stop.resolveEnvironment c (CFContext.Environment cf) = inl environment ->
  Authorization.Username (stop.Deployment.Authorization deployment) = "" ->
  Authorization.Password (stop.Deployment.Authorization deployment) = "" ->
  let r := stop.StopDeployment ErrorString Name c deployment data w in
  let tr := stop_made (stop.StopDeployment ErrorString Name c deployment data) w in
  if Environment.Authenticate environment then
    fst r = Returned (stop.DeployResponse.mk 401 None (Some BasicAuthError)) /\
    events tr = [] /\
    stop.World.response (snd r) = stop.World.response w /\
    stop.World.ext (snd r) = stop.World.ext w
  else
    fst (stop.resolveAuthorization c (stop.Deployment.Authorization deployment)
           environment w) = (default, None) /\
    head (events tr) =
      Some (stop.StopStartedEvent
              (stop.StopEvent.mk cf default environment (data_or_empty data)
                 (stop.StopController.Log c))) /\
    Forall (carries default) tr.
Proof.
  intros cf default HEnv HU HP. subst cf default. cbv zeta.
  unfold data_or_empty. stop_unfold. rewrite HEnv.
  unfold stop.resolveAuthorization, bind, ret, stop.log. rewrite HU, HP.
  cbn [String.eqb andb].
  destruct (Environment.Authenticate environment).
  - read_stop_trace. auto.
  - split; [reflexivity|].
    stop_run; read_stop_trace; split; try reflexivity;
      repeat constructor.
Qed.

(** C9. With exactly one of username and password empty,
    [resolveAuthorization] returns the credentials as given and no error,
    whether or not the environment requires authentication; the call goes on
    to emit StopStarted, and every event and deployer call of the run carries
    the credentials as given. *)
Theorem partial_credentials_pass_through (c : stop.StopController.t X AC)
    (deployment : stop.Deployment.t) (data : option (gmap string any))
    (w : stop.World.t X) (environment : Environment.t) :
  let cf := stop.Deployment.CFContext deployment in
  let auth := stop.Deployment.Authorization deployment in
  (Authorization.Username auth = "" /\ Authorization.Password auth <> "") \/
  (Authorization.Username auth <> "" /\ Authorization.Password auth = "") ->
  (forall (envs : Environment.t) (w' : stop.World.t X),
     fst (stop.resolveAuthorization c auth envs w') = (auth, None)) /\
  (stop.resolveEnvironment c (CFContext.Environment cf) = inl environment ->
   let tr := stop_made (stop.StopDeployment ErrorString Name c deployment data) w in
   head (events tr) =
     Some (stop.StopStartedEvent
             (stop.StopEvent.mk cf auth environment (data_or_empty data)
                (stop.StopController.Log c))) /\
   Forall (carries auth) tr).
Proof.
  intros cf auth Hone. subst cf auth. cbv zeta.
  assert (Hb : String.eqb (Authorization.Username (stop.Deployment.Authorization deployment)) "" &&
               String.eqb (Authorization.Password (stop.Deployment.Authorization deployment)) ""
               = false).
  { destruct Hone as [[_ Hp]|[Hu _]].
    - apply String.eqb_neq in Hp. rewrite Hp. apply andb_false_r.
    - apply String.eqb_neq in Hu. rewrite Hu. reflexivity. }
  assert (Hres : forall envs w',
            stop.resolveAuthorization c (stop.Deployment.Authorization deployment) envs w' =
            ((stop.Deployment.Authorization deployment, None),
             stop.World.mk (stop.World.ext w') (stop.World.response w')
               (stop.World.trace w' ++ [stop.Log (Debug "checking for basic auth")]))).
  { intros envs w'. unfold stop.resolveAuthorization, bind, ret, stop.log.
    rewrite Hb. reflexivity. }
  split.
  - intros envs w'. rewrite Hres. reflexivity.
  - intros HEnv. unfold data_or_empty. stop_unfold. rewrite HEnv.
    stop_cbn. rewrite Hres.
    stop_run; read_stop_trace; split; try reflexivity; repeat constructor.
Qed.

(** C10 (amended).  Whatever the subscribers of the StopSuccess, StopFailure
    and StopFinished events do or return, the outcome of [StopDeployment] is
    the same: two event managers that agree on StopStarted lead to the same
    returned response.  The deferred emission of the outcome changes the
    response only by the classifier's replacement of its error by the first
    found error.  An error returned by the emission of StopSuccess or
    StopFailure is logged and written, with a newline, to the response
    buffer: by [emitStopSuccessOrFailure] in either branch, and so in every
    returning [StopDeployment] call, where it is the last error logged and
    the end of the transcript that the subscribers of StopFinished
    receive. *)
Theorem emission_errors_leave_the_response (c : stop.StopController.t X AC)
    (emit' : stop.IEvent -> M (X * bytes) (option error)) :
  let c' := stop.StopController.mk X AC (stop.StopController.Deploy c)
              (stop.StopController.Log c) (stop.StopController.StopManager c)
              (stop.StopController.Config c) emit' (stop.StopController.FindErrors c) in
  (forall (v : stop.StopEvent.t) (s : X * bytes),
     emit' (stop.StopStartedEvent v) s =
     stop.StopController.EmitEvent c (stop.StopStartedEvent v) s) ->
  (forall (deployment : stop.Deployment.t) (data : option (gmap string any))
          (w : stop.World.t X),
     fst (stop.StopDeployment ErrorString Name c' deployment data w) =
     fst (stop.StopDeployment ErrorString Name c deployment data w)) /\
  (forall (cf : CFContext.t) (auth : Authorization.t) (environment : Environment.t)
          (data : gmap string any) (deployResponse : stop.DeployResponse.t)
          (w : stop.World.t X),
     let after := snd (fst (stop.emitStopSuccessOrFailure ErrorString Name c cf auth
                              environment data deployResponse w)) in
     stop.DeployResponse.StatusCode after = stop.DeployResponse.StatusCode deployResponse /\
     stop.DeployResponse.DeploymentInfo after =
       stop.DeployResponse.DeploymentInfo deployResponse /\
     stop.DeployResponse.Error after =
       classified (fst (stop.StopController.FindErrors c (stop.World.response w)
                          (stop.World.ext w)))
         <$> stop.DeployResponse.Error deployResponse) /\
  (forall (event : stop.IEvent) (w : stop.World.t X) (err : error) (x : X) (resp : bytes),
     stop.StopController.EmitEvent c event (stop.World.ext w, stop.World.response w) =
       (Some err, (x, resp)) ->
     stop.emitStopSuccessOrFailure_emit ErrorString Name c event w =
       (tt, stop.World.mk x (resp +:+ Sprintln (ErrorString err))
              (stop.World.trace w ++
               [stop.Log (Debugf "emitting a %s event" [Name event]);
                stop.EmitEvent event;
                stop.Log (Errorf "an error occurred when emitting a %s event: %s"
                            [Name event; ErrorString err])]))) /\
  (forall (cf : CFContext.t) (auth : Authorization.t) (environment : Environment.t)
          (data : gmap string any) (deployResponse : stop.DeployResponse.t)
          (w w1 : stop.World.t X) (event : stop.IEvent) (err : error) (x : X)
          (resp : bytes),
     let v := stop.StopEvent.mk cf auth environment data (stop.StopController.Log c) in
     match stop.DeployResponse.Error deployResponse with
     | None => event = stop.StopSuccessEvent v /\ w1 = w
     | Some original =>
         exists classifiedErr : error,
           stop.printErrors c original w = ((Returned tt, classifiedErr), w1) /\
           event = stop.StopFailureEvent v classifiedErr
     end ->
     stop.StopController.EmitEvent c event (stop.World.ext w1, stop.World.response w1) =
       (Some err, (x, resp)) ->
     snd (stop.emitStopSuccessOrFailure ErrorString Name c cf auth environment data
            deployResponse w) =
       stop.World.mk x (resp +:+ Sprintln (ErrorString err))
         (stop.World.trace w1 ++
          [stop.Log (Debugf "emitting a %s event" [Name event]);
           stop.EmitEvent event;
           stop.Log (Errorf "an error occurred when emitting a %s event: %s"
                       [Name event; ErrorString err])])) /\
  (forall (deployment : stop.Deployment.t) (data : option (gmap string any))
          (w : stop.World.t X) (environment : Environment.t) (auth : Authorization.t)
          (err : error) (resp : stop.DeployResponse.t),
     let cf := stop.Deployment.CFContext deployment in
     let v := stop.StopEvent.mk cf auth environment (data_or_empty data)
                (stop.StopController.Log c) in
     (forall (v' : stop.StopEvent.t) (s : X * bytes),
        fst (stop.StopController.EmitEvent c (stop.StopSuccessEvent v') s) = Some err) ->
     (forall (v' : stop.StopEvent.t) (e : error) (s : X * bytes),
        fst (stop.StopController.EmitEvent c (stop.StopFailureEvent v' e) s) = Some err) ->
     (forall (v' : stop.StopEvent.t) (s : X * bytes),
        snd (stop.StopController.EmitEvent c (stop.StopFinishedEvent v') s) = s) ->
     stop.resolveEnvironment c (CFContext.Environment cf) = inl environment ->
     fst (stop.resolveAuthorization c (stop.Deployment.Authorization deployment)
            environment w) = (auth, None) ->
     fst (stop.StopDeployment ErrorString Name c deployment data w) = Returned resp ->
     last (logged_errors
             (stop_made (stop.StopDeployment ErrorString Name c deployment data) w)) =
       Some (Errorf "an error occurred when emitting a %s event: %s"
               [Name (outcome_event v resp); ErrorString err]) /\
     exists transcript : bytes,
       stop.World.response
         (snd (stop.StopDeployment ErrorString Name c deployment data w)) =
       transcript +:+ Sprintln (ErrorString err)).
Proof.
  intros c' Hagree. subst c'. split; [|split; [|split; [|split]]].
  - intros deployment data w. stop_unfold.
    unfold stop.resolveEnvironment, stop.resolveAuthorization, bind, ret, stop.log.
    repeat (stop_cbn; rewrite ?Hagree; stop_step); reflexivity.
  - intros cf auth environment data deployResponse w. cbv zeta.
    stop_unfold. stop_cbn.
    destruct deployResponse as [status info [original|]];
      stop_run; repeat split; reflexivity.
  - intros event w err x resp HEmit. stop_unfold. stop_cbn. rewrite HEmit.
    stop_cbn. rewrite <- !app_assoc. reflexivity.
  - intros cf auth environment data [status info [original|]] w w1 event err x resp;
      cbv zeta; cbn [stop.DeployResponse.Error].
    + intros (classifiedErr & HPrint & ->) HEmit.
      unfold stop.emitStopSuccessOrFailure, stop.emitStopSuccessOrFailure_emit,
        stop.call_rw, stop.log, stop.Write, bind, ret.
      cbn [stop.DeployResponse.Error]. rewrite HPrint. stop_cbn. rewrite HEmit.
      stop_cbn. rewrite <- !app_assoc. reflexivity.
    + intros [-> ->] HEmit.
      unfold stop.emitStopSuccessOrFailure, stop.emitStopSuccessOrFailure_emit,
        stop.call_rw, stop.log, stop.Write, bind, ret.
      stop_cbn. rewrite HEmit. stop_cbn. rewrite <- !app_assoc. reflexivity.
  - intros deployment data w environment auth err resp cf v HS HF HFin HEnv HAuth.
    subst cf v. unfold data_or_empty in *. stop_unfold. rewrite HEnv.
    stop_cbn. rewrite (resolveAuthorization_any _ _ _ _ w), HAuth.
    repeat
      (stop_cbn;
       first
         [ match goal with
           | |- context [stop.StopController.EmitEvent c (stop.StopSuccessEvent ?v') ?s] =>
               let H := fresh in
               pose proof (HS v' s) as H;
               destruct (stop.StopController.EmitEvent c (stop.StopSuccessEvent v') s)
                 as [[?|] [? ?]];
               cbn [fst] in H; [injection H as -> | discriminate H]
           | |- context [stop.StopController.EmitEvent c (stop.StopFailureEvent ?v' ?e) ?s] =>
               let H := fresh in
               pose proof (HF v' e s) as H;
               destruct (stop.StopController.EmitEvent c (stop.StopFailureEvent v' e) s)
                 as [[?|] [? ?]];
               cbn [fst] in H; [injection H as -> | discriminate H]
           | |- context [stop.StopController.EmitEvent c (stop.StopFinishedEvent ?v') ?s] =>
               let H := fresh in
               pose proof (HFin v' s) as H;
               destruct (stop.StopController.EmitEvent c (stop.StopFinishedEvent v') s)
                 as [? [? ?]];
               cbn [snd] in H; injection H as -> ->
           end
         | stop_step ]);
      stop_cbn; intros Hr; try discriminate Hr; injection Hr as <-;
      read_stop_trace; unfold outcome_event; cbn [stop.DeployResponse.Error];
      (split; [reflexivity | eexists; reflexivity]).
Qed.

End StopClaims.

(** ** Concrete runs of the stop controller *)

(** C1, as stated, fails: when the subscribers of StopStarted refuse, the
    returned error is an [EventError] that wraps an [InitializationError],
    not an [InitializationError] that wraps an [EventError]; and when the
    classifier finds a known error in the transcript, the returned error is
    that one. *)
Lemma started_failure_nesting_counterexample :
  fst (stop.StopController.EmitEvent
         (demo.controller false demo.fails_on_started [] (Some demo.stopped))
         (stop.StopStartedEvent (demo.envelope false demo.defaults)) (tt, "")) =
    Some (Opaque "subscriber refused") /\
  (exists resp : stop.DeployResponse.t,
     fst (demo.run false demo.fails_on_started [] (Some demo.stopped) "" "") =
       Returned resp /\
     stop.DeployResponse.StatusCode resp = 500%Z /\
     stop.DeployResponse.Error resp =
       Some (EventError "StopStartedEvent"
               (InitializationError (Opaque "subscriber refused")))) /\
  ~ (exists (resp : stop.DeployResponse.t) (e : error),
       fst (demo.run false demo.fails_on_started [] (Some demo.stopped) "" "") =
         Returned resp /\
       stop.DeployResponse.Error resp =
         Some (InitializationError (EventError "StopStartedEvent" e))) /\
  (exists resp : stop.DeployResponse.t,
     fst (demo.run false demo.fails_on_started [demo.oom] (Some demo.stopped) "" "") =
       Returned resp /\
     stop.DeployResponse.Error resp = Some (Matched demo.oom)).
Proof.
  split; [reflexivity|]. split; [|split].
  - eexists. split; [reflexivity|]. split; reflexivity.
  - intros (resp & e & Hr & He). vm_compute in Hr. injection Hr as <-.
    discriminate He.
  - eexists. split; reflexivity.
Qed.

Lemma started_failure_aborts_witness :
  existsb invokes_BlueGreen
    (stop_made (stop.StopDeployment demo.ErrorString demo.Name demo.refusing
                  (demo.deployment "" "") None) demo.world) = false /\
  last (events
          (stop_made (stop.StopDeployment demo.ErrorString demo.Name demo.refusing
                        (demo.deployment "" "") None) demo.world)) =
    Some (stop.StopFinishedEvent (demo.envelope false demo.defaults)) /\
  exists resp : stop.DeployResponse.t,
    fst (stop.StopDeployment demo.ErrorString demo.Name demo.refusing
           (demo.deployment "" "") None demo.world) = Returned resp /\
    stop.DeployResponse.StatusCode resp = 500%Z /\
    stop.DeployResponse.Error resp = Some (Matched demo.oom).
Proof.
  exact (started_failure_aborts demo.ErrorString demo.Name demo.refusing
           (demo.deployment "" "") None demo.world (demo.environment false)
           demo.defaults (Opaque "subscriber refused") tt "" eq_refl eq_refl eq_refl).
Defined.


Lemma missing_credentials_witness :
  fst (stop.StopDeployment demo.ErrorString demo.Name (demo.calm true)
         (demo.deployment "" "") None demo.world) =
    Returned (stop.DeployResponse.mk 401 None (Some BasicAuthError)) /\
  events (stop_made (stop.StopDeployment demo.ErrorString demo.Name (demo.calm true)
                       (demo.deployment "" "") None) demo.world) = [] /\
  stop.World.response
    (snd (stop.StopDeployment demo.ErrorString demo.Name (demo.calm true)
            (demo.deployment "" "") None demo.world)) = "" /\
  stop.World.ext
    (snd (stop.StopDeployment demo.ErrorString demo.Name (demo.calm true)
            (demo.deployment "" "") None demo.world)) = tt.
Proof.
  exact (missing_credentials demo.ErrorString demo.Name (demo.calm true)
           (demo.deployment "" "") None demo.world (demo.environment true)
           eq_refl eq_refl eq_refl).
Defined.

Lemma partial_credentials_pass_through_witness :
  fst (stop.resolveAuthorization (demo.calm true) (Authorization.mk "alice" "")
         (demo.environment true) demo.world) = (Authorization.mk "alice" "", None) /\
  head (events
          (stop_made (stop.StopDeployment demo.ErrorString demo.Name (demo.calm true)
                        (demo.deployment "alice" "") None) demo.world)) =
    Some (stop.StopStartedEvent (demo.envelope true (Authorization.mk "alice" ""))).
Proof.
  assert (Hone :
    (Authorization.Username (stop.Deployment.Authorization (demo.deployment "alice" "")) = "" /\
     Authorization.Password (stop.Deployment.Authorization (demo.deployment "alice" "")) <> "") \/
    (Authorization.Username (stop.Deployment.Authorization (demo.deployment "alice" "")) <> "" /\
     Authorization.Password (stop.Deployment.Authorization (demo.deployment "alice" "")) = "")).
  { right. split; [discriminate | reflexivity]. }
  split.
  - exact (proj1 (partial_credentials_pass_through demo.ErrorString demo.Name
                    (demo.calm true) (demo.deployment "alice" "") None demo.world
                    (demo.environment true) Hone)
             (demo.environment true) demo.world).
  - exact (proj1 (proj2 (partial_credentials_pass_through demo.ErrorString demo.Name
                           (demo.calm true) (demo.deployment "alice" "") None demo.world
                           (demo.environment true) Hone)
                    eq_refl)).
Defined.

(** C10, as stated, fails for StopFinished: the error its subscribers return
    is dropped; no error is logged and nothing but the deployer's output is
    in the response. *)
Lemma finished_error_is_dropped_counterexample :
  fst (stop.StopController.EmitEvent
         (demo.controller false demo.fails_on_finished [] (Some demo.stopped))
         (stop.StopFinishedEvent (demo.envelope false demo.defaults))
         (tt, "stopping app")) = Some (Opaque "finish handler failed") /\
  last (stop.World.trace
          (snd (demo.run false demo.fails_on_finished [] (Some demo.stopped) "" ""))) =
    Some (stop.EmitEvent (stop.StopFinishedEvent (demo.envelope false demo.defaults))) /\
  logged_errors
    (stop.World.trace
       (snd (demo.run false demo.fails_on_finished [] (Some demo.stopped) "" ""))) = [] /\
  stop.World.response
    (snd (demo.run false demo.fails_on_finished [] (Some demo.stopped) "" "")) =
    "stopping app".
Proof. repeat split; reflexivity. Qed.

Lemma emission_errors_leave_the_response_witness :
  fst (stop.StopDeployment demo.ErrorString demo.Name (demo.calm false)
         (demo.deployment "" "") None demo.world) =
  fst (stop.StopDeployment demo.ErrorString demo.Name demo.outcome_failing
         (demo.deployment "" "") None demo.world) /\
  stop.emitStopSuccessOrFailure_emit demo.ErrorString demo.Name demo.outcome_failing
    (stop.StopSuccessEvent (demo.envelope false demo.defaults)) demo.world =
  (tt, stop.World.mk tt ("" +:+ Sprintln "outcome handler failed")
         ([] ++
          [stop.Log (Debugf "emitting a %s event" ["StopSuccessEvent"]);
           stop.EmitEvent (stop.StopSuccessEvent (demo.envelope false demo.defaults));
           stop.Log (Errorf "an error occurred when emitting a %s event: %s"
                       ["StopSuccessEvent"; "outcome handler failed"])])) /\
  snd (stop.emitStopSuccessOrFailure demo.ErrorString demo.Name demo.outcome_failing
         (CFContext.mk "prod" "org" "space" "app") demo.defaults (demo.environment false)
         ∅ demo.stopped demo.world) =
  stop.World.mk tt ("" +:+ Sprintln "outcome handler failed")
    ([] ++
     [stop.Log (Debugf "emitting a %s event" ["StopSuccessEvent"]);
      stop.EmitEvent (stop.StopSuccessEvent (demo.envelope false demo.defaults));
      stop.Log (Errorf "an error occurred when emitting a %s event: %s"
                  ["StopSuccessEvent"; "outcome handler failed"])]) /\
  last (logged_errors
          (stop_made (stop.StopDeployment demo.ErrorString demo.Name demo.outcome_failing
                        (demo.deployment "" "") None) demo.world)) =
    Some (Errorf "an error occurred when emitting a %s event: %s"
            ["StopSuccessEvent"; "outcome handler failed"]) /\
  exists transcript : bytes,
    stop.World.response
      (snd (stop.StopDeployment demo.ErrorString demo.Name demo.outcome_failing
              (demo.deployment "" "") None demo.world)) =
    transcript +:+ Sprintln "outcome handler failed".
Proof.
  pose proof (emission_errors_leave_the_response demo.ErrorString demo.Name
                demo.outcome_failing (fun e s => (demo.quiet e, s))
                (fun v s => eq_refl)) as (Hframe & _ & Hlogged & Hwhole & Hcall).
  split; [|split; [|split]].
  - exact (Hframe (demo.deployment "" "") None demo.world).
  - exact (Hlogged (stop.StopSuccessEvent (demo.envelope false demo.defaults)) demo.world
             (Opaque "outcome handler failed") tt "" eq_refl).
  - exact (Hwhole (CFContext.mk "prod" "org" "space" "app") demo.defaults
             (demo.environment false) ∅ demo.stopped demo.world demo.world
             (stop.StopSuccessEvent (demo.envelope false demo.defaults))
             (Opaque "outcome handler failed") tt "" (conj eq_refl eq_refl) eq_refl).
  - exact (Hcall (demo.deployment "" "") None demo.world (demo.environment false)
             demo.defaults (Opaque "outcome handler failed") demo.stopped
             (fun v s => eq_refl) (fun v e s => eq_refl) (fun v s => eq_refl)
             eq_refl eq_refl eq_refl).
Defined.

(** * Further properties of the stop controller *)

Lemma append_assoc (s t u : string) : (s +:+ t) +:+ u = s +:+ (t +:+ u).
Proof.
  induction s as [|a s IH]; [reflexivity |].
  change ((String a s +:+ t) +:+ u) with (String a ((s +:+ t) +:+ u)).
  change (String a s +:+ (t +:+ u)) with (String a (s +:+ (t +:+ u))).
  now rewrite IH.
Qed.

Section StopFurther.
Context {X AC : Type}.
Variable ErrorString : error -> string.
Variable Name : stop.IEvent -> string.

(** X1. A request for an environment that the configuration does not hold
    returns status 500 with an [EnvironmentNotFoundError] that names the
    environment, writes the error's text and a newline to the response, and
    does nothing else: no credentials check, no event, no deployer call. *)
Theorem unknown_environment (c : stop.StopController.t X AC)
    (deployment : stop.Deployment.t) (data : option (gmap string any))
    (w : stop.World.t X) :
  let env := CFContext.Environment (stop.Deployment.CFContext deployment) in
  stop.Config.Environments (stop.StopController.Config c) !! env = None ->
  stop.StopDeployment ErrorString Name c deployment data w =
    (Returned (stop.DeployResponse.mk 500 None (Some (EnvironmentNotFoundError env))),
     stop.World.mk (stop.World.ext w)
       (stop.World.response w +:+ Sprintln (ErrorString (EnvironmentNotFoundError env)))
       (stop.World.trace w ++
        [stop.Log (Debugf "Preparing to stop %s with UUID %s"
                     [CFContext.Application (stop.Deployment.CFContext deployment);
                      stop.DeploymentLogger.UUID (stop.StopController.Log c)])])).
Proof.
  intros env HNone. subst env.
  unfold stop.StopDeployment, stop.resolveEnvironment, bind, ret, stop.log, stop.Write.
  rewrite HNone. reflexivity.
Qed.

(** X2. [resolveAuthorization] fails exactly when username and password are
    both empty and the environment requires authentication; it then returns
    the zero credentials with a [BasicAuthError].  Otherwise it returns the
    configuration's credentials when both are empty and the given ones in
    every other case. *)
Theorem resolveAuthorization_fails_iff (c : stop.StopController.t X AC)
    (auth : Authorization.t) (envs : Environment.t) (w : stop.World.t X) :
  let r := fst (stop.resolveAuthorization c auth envs w) in
  let both_empty := Authorization.Username auth = "" /\ Authorization.Password auth = "" in
  (snd r <> None <-> both_empty /\ Environment.Authenticate envs = true) /\
  (snd r <> None -> r = (Authorization.zero, Some BasicAuthError)) /\
  (snd r = None -> both_empty ->
   fst r = Authorization.mk (stop.Config.Username (stop.StopController.Config c))
             (stop.Config.Password (stop.StopController.Config c))) /\
  (~ both_empty -> r = (auth, None)).
Proof.
  cbv zeta. unfold stop.resolveAuthorization, bind, ret, stop.log. cbn [fst snd].
  destruct (String.eqb_spec (Authorization.Username auth) "") as [Hu|Hu];
    destruct (String.eqb_spec (Authorization.Password auth) "") as [Hp|Hp];
    cbn [andb]; try destruct (Environment.Authenticate envs);
    cbn [fst snd]; repeat split; try tauto; try congruence; try discriminate;
    try (intros []; congruence); try (intros [[] ?]; congruence).
Qed.

(** X3. When StopStarted is delivered and the deployer returns a response,
    the deployer was called once, after its factory, with the manager the
    factory made and with the [DeploymentInfo] of the request; its status
    code and deployment info are returned as they are, and its error only
    changes by the classifier's replacement. *)
Theorem deployer_response_passes_through (c : stop.StopController.t X AC)
    (deployment : stop.Deployment.t) (data : option (gmap string any))
    (w : stop.World.t X) (environment : Environment.t) (auth : Authorization.t)
    (x1 x2 x3 : X) (resp1 resp3 : bytes) (manager : AC)
    (deployed : stop.DeployResponse.t) :
  let cf := stop.Deployment.CFContext deployment in
  let v := stop.StopEvent.mk cf auth environment (data_or_empty data)
             (stop.StopController.Log c) in
  let info := stop_deploymentInfo (stop.StopController.Log c) cf environment auth
                (data_or_empty data) in
  stop.resolveEnvironment c (CFContext.Environment cf) = inl environment ->
  fst (stop.resolveAuthorization c (stop.Deployment.Authorization deployment)
         environment w) = (auth, None) ->
  stop.StopController.EmitEvent c (stop.StopStartedEvent v)
    (stop.World.ext w, stop.World.response w) = (None, (x1, resp1)) ->
  stop.StopController.StopManager c (stop.DeployEventData.mk info) x1 = (manager, x2) ->
  stop.StopController.Deploy c info environment manager (x2, resp1) =
    (Some deployed, (x3, resp3)) ->
  let r := stop.StopDeployment ErrorString Name c deployment data w in
  let tr := stop_made (stop.StopDeployment ErrorString Name c deployment data) w in
  deployer_calls tr =
    [stop.StopManager (stop.DeployEventData.mk info); stop.Deploy info environment] /\
  fst r =
    match stop.DeployResponse.Error deployed with
    | None => Returned deployed
    | Some err =>
        let found := fst (stop.StopController.FindErrors c resp3 x3) in
        if forallb has_detail found then
          Returned (stop.DeployResponse.mk (stop.DeployResponse.StatusCode deployed)
                      (stop.DeployResponse.DeploymentInfo deployed)
                      (Some (classified found err)))
        else Panicked
    end.
Proof.
  intros cf v info HEnv HAuth HStarted HManager HDeploy. subst cf v info. cbv zeta.
  unfold data_or_empty, stop_deploymentInfo, deployer_calls in *.
  stop_unfold. rewrite HEnv.
  stop_cbn. rewrite (resolveAuthorization_any _ _ _ _ w), HAuth.
  stop_cbn. rewrite HStarted. stop_cbn. rewrite HManager. stop_cbn. rewrite HDeploy.
  destruct deployed as [status dinfo [err|]];
    stop_run; read_stop_trace; cbn [List.filter invokes_BlueGreen app];
    split; reflexivity.
Qed.

(** X4. Whenever [StopDeployment] gets past the credentials check and
    returns, the outcome event agrees with the returned response:
    StopSuccess when the response has no error, StopFailure with the very
    error of the response otherwise. *)
Theorem outcome_event_matches_response (c : stop.StopController.t X AC)
    (deployment : stop.Deployment.t) (data : option (gmap string any))
    (w : stop.World.t X) (environment : Environment.t) (auth : Authorization.t)
    (resp : stop.DeployResponse.t) :
  let cf := stop.Deployment.CFContext deployment in
  let v := stop.StopEvent.mk cf auth environment (data_or_empty data)
             (stop.StopController.Log c) in
  stop.resolveEnvironment c (CFContext.Environment cf) = inl environment ->
  fst (stop.resolveAuthorization c (stop.Deployment.Authorization deployment)
         environment w) = (auth, None) ->
  fst (stop.StopDeployment ErrorString Name c deployment data w) = Returned resp ->
  events (stop_made (stop.StopDeployment ErrorString Name c deployment data) w) =
    [stop.StopStartedEvent v; outcome_event v resp; stop.StopFinishedEvent v].
Proof.
  intros cf v HEnv HAuth. subst cf v. cbv zeta.
  unfold data_or_empty in *. stop_unfold. rewrite HEnv.
  stop_cbn. rewrite (resolveAuthorization_any _ _ _ _ w), HAuth.
  stop_run; stop_cbn; intros Hr; try discriminate Hr;
    injection Hr as <-; read_stop_trace; reflexivity.
Qed.

(** X5. When the deployer returns a nil pointer the call panics, but not
    before the deferred emissions ran on the untouched zero response:
    subscribers see StopSuccess and then StopFinished. *)
Theorem nil_deployer_response_panics (c : stop.StopController.t X AC)
    (deployment : stop.Deployment.t) (data : option (gmap string any))
    (w : stop.World.t X) (environment : Environment.t) (auth : Authorization.t)
    (x1 x2 x3 : X) (resp1 resp3 : bytes) (manager : AC) :
  let cf := stop.Deployment.CFContext deployment in
  let v := stop.StopEvent.mk cf auth environment (data_or_empty data)
             (stop.StopController.Log c) in
  let info := stop_deploymentInfo (stop.StopController.Log c) cf environment auth
                (data_or_empty data) in
  stop.resolveEnvironment c (CFContext.Environment cf) = inl environment ->
  fst (stop.resolveAuthorization c (stop.Deployment.Authorization deployment)
         environment w) = (auth, None) ->
  stop.StopController.EmitEvent c (stop.StopStartedEvent v)
    (stop.World.ext w, stop.World.response w) = (None, (x1, resp1)) ->
  stop.StopController.StopManager c (stop.DeployEventData.mk info) x1 = (manager, x2) ->
  stop.StopController.Deploy c info environment manager (x2, resp1) =
    (None, (x3, resp3)) ->
  fst (stop.StopDeployment ErrorString Name c deployment data w) = Panicked /\
  events (stop_made (stop.StopDeployment ErrorString Name c deployment data) w) =
    [stop.StopStartedEvent v; stop.StopSuccessEvent v; stop.StopFinishedEvent v].
Proof.
  intros cf v info HEnv HAuth HStarted HManager HDeploy. subst cf v info. cbv zeta.
  unfold data_or_empty, stop_deploymentInfo in *.
  stop_unfold. rewrite HEnv.
  stop_cbn. rewrite (resolveAuthorization_any _ _ _ _ w), HAuth.
  stop_cbn. rewrite HStarted. stop_cbn. rewrite HManager. stop_cbn. rewrite HDeploy.
  stop_run; read_stop_trace; split; reflexivity.
Qed.

(** The loop of [printErrors] only appends to the response. *)
Lemma printErrors_loop_appends (errors : list LogMatchedError.t) (w : stop.World.t X) :
  exists suffix : string,
    stop.World.response (snd (stop.printErrors_loop errors w)) =
      stop.World.response w +:+ suffix.
Proof.
  revert w. induction errors as [|m errors IH]; intros w.
  - exists "". cbn. now rewrite append_empty_r.
  - cbn [stop.printErrors_loop]. unfold bind, stop.Write.
    destruct (LogMatchedError.Details m) as [|detail details].
    + cbn [snd stop.World.response stop.World.ext stop.World.trace ret].
      rewrite !append_assoc. eexists. reflexivity.
    + cbn [stop.World.response stop.World.ext stop.World.trace].
      match goal with |- context [stop.printErrors_loop errors ?W] =>
        destruct (IH W) as [suffix ->] end.
      cbn [stop.World.response]. rewrite !append_assoc. eexists. reflexivity.
Qed.

(** X6. [printErrors] hands the whole transcript to the error finder and
    keeps it: afterwards the response starts with the transcript as it was,
    and is exactly the transcript when nothing was found.  The error it was
    given is replaced by the first found error, and kept when nothing was
    found. *)
Theorem printErrors_keeps_transcript (c : stop.StopController.t X AC)
    (err : error) (w : stop.World.t X) :
  let r := stop.printErrors c err w in
  let found := fst (stop.StopController.FindErrors c (stop.World.response w)
                      (stop.World.ext w)) in
  stop_made (stop.printErrors c err) w = [stop.FindErrors (stop.World.response w)] /\
  (exists suffix : string,
     stop.World.response (snd r) = stop.World.response w +:+ suffix) /\
  (found = [] -> stop.World.response (snd r) = stop.World.response w) /\
  snd (fst r) = classified found err.
Proof.
  cbv zeta. unfold stop_made, stop.printErrors, stop.call, stop.ReadFrom, stop.Write,
    bind, ret.
  cbn [stop.World.ext stop.World.response stop.World.trace].
  destruct (stop.StopController.FindErrors c _ _) as [[|m found] x1]; cbn [fst snd].
  - cbn [stop.World.trace stop.World.response classified].
    rewrite drop_own_length. repeat split; try reflexivity.
    exists "". now rewrite append_empty_r.
  - match goal with |- context [stop.printErrors_loop ?l ?W] =>
      destruct (printErrors_loop_appends l W) as [suffix Hs];
      destruct (printErrors_loop_runs l W) as [resp Hr] end.
    rewrite Hr in *. cbn [fst snd stop.World.trace stop.World.response classified] in *.
    rewrite drop_own_length. repeat split; try reflexivity; try discriminate.
    exists suffix. exact Hs.
Qed.

(** X7. [printErrors] panics exactly when one of the found errors has no
    detail line: indexing its details at 0 is out of range. *)
Theorem printErrors_panics_without_details (c : stop.StopController.t X AC)
    (err : error) (w : stop.World.t X) :
  let found := fst (stop.StopController.FindErrors c (stop.World.response w)
                      (stop.World.ext w)) in
  fst (fst (stop.printErrors c err w)) = Panicked <->
  exists m : LogMatchedError.t, m ∈ found /\ LogMatchedError.Details m = [].
Proof.
  cbv zeta. unfold stop.printErrors, stop.call, stop.ReadFrom, stop.Write, bind, ret.
  cbn [stop.World.ext stop.World.response stop.World.trace].
  destruct (stop.StopController.FindErrors c _ _) as [found x1]; cbn [fst snd].
  assert (Hall : forallb has_detail found = false <->
                 exists m, m ∈ found /\ LogMatchedError.Details m = []).
  { induction found as [|m found IH]; cbn [forallb].
    - split; [discriminate|]. intros (m & Hm & _). now apply elem_of_nil in Hm.
    - rewrite andb_false_iff, IH. unfold has_detail. split.
      + intros [Hm|(m' & Hin & Hd)].
        * exists m. split; [apply elem_of_cons; now left|].
          destruct (LogMatchedError.Details m); [reflexivity|discriminate].
        * exists m'. split; [apply elem_of_cons; now right|exact Hd].
      + intros (m' & Hin & Hd). apply elem_of_cons in Hin as [->|Hin].
        * left. now rewrite Hd.
        * right. exists m'. split; assumption. }
  destruct found as [|m found].
  - cbn [fst]. rewrite <- Hall. cbn. split; discriminate.
  - match goal with |- context [stop.printErrors_loop ?l ?W] =>
      destruct (printErrors_loop_runs l W) as [resp ->] end.
    cbn [fst]. rewrite <- Hall.
    destruct (forallb has_detail (m :: found)); split; congruence.
Qed.

End StopFurther.

(** * Further properties of the push action *)

Section PushFurther.
Context {X : Type}.
Variable ErrorString : error -> string.
Variable C_PushFinishedEvent : string.
Variable Name : push.PushFinishedEvent.t -> string.

(** X8. [Initially] makes one courier call, the login with the credentials
    of the [DeploymentInfo], and writes its output to the response whether
    or not the login succeeds; a failed login is reported as a [LoginError]
    with the foundation URL and that output. *)
Theorem Initially_writes_login_output (p : push.Pusher.t X) (w : push.World.t X)
    (output : bytes) (err : option error) (x1 : X) :
  let d := push.Pusher.DeploymentInfo p in
  push.ICourier.Login (push.Pusher.Courier p) (push.Pusher.FoundationURL p)
    (DeploymentInfo.Username d) (DeploymentInfo.Password d) (DeploymentInfo.Org d)
    (DeploymentInfo.Space d) (DeploymentInfo.SkipSSL d) (push.World.ext w) =
    ((output, err), x1) ->
  let r := push.Initially p w in
  fst r = (fun _ => LoginError (push.Pusher.FoundationURL p) output) <$> err /\
  push.World.response (snd r) = push.World.response w +:+ output /\
  push.World.ext (snd r) = x1 /\
  courier_made (push.Initially p) w =
    [push.CLogin (push.Pusher.FoundationURL p) (DeploymentInfo.Username d)
       (DeploymentInfo.Password d) (DeploymentInfo.Org d) (DeploymentInfo.Space d)
       (DeploymentInfo.SkipSSL d)].
Proof.
  intros d HLogin r. subst d r. push_unfold. cbn [push.World.ext].
  rewrite HLogin. destruct err; read_trace; auto.
Qed.

(** X9. A successful [Execute] pushed the temporary application, mapped the
    load-balanced route if and only if a domain is configured, and then
    emitted the named event and the typed event, in that order, both with
    the temporary name; it made no other courier call. *)
Theorem Execute_success_sequence (p : push.Pusher.t X) (w : push.World.t X) :
  let d := push.Pusher.DeploymentInfo p in
  fst (push.Execute C_PushFinishedEvent Name p w) = None ->
  courier_made (push.Execute C_PushFinishedEvent Name p) w =
    push.CPush (temp_name d) (push.Pusher.AppPath p) (DeploymentInfo.AppName d)
      (DeploymentInfo.Instances d)
    :: (if String.eqb (DeploymentInfo.Domain d) "" then []
        else [push.CMapRoute (temp_name d) (DeploymentInfo.Domain d)
                (DeploymentInfo.AppName d)]) /\
  emissions (made (push.Execute C_PushFinishedEvent Name p) w) =
    PushFinished_events C_PushFinishedEvent p.
Proof.
  cbv zeta. unfold PushFinished_events, temp_name. push_unfold.
  unfold push.TemporaryNameSuffix.
  destruct (String.eqb (DeploymentInfo.Domain (push.Pusher.DeploymentInfo p)) "");
    run_all; cbn [fst]; intros Hr; try discriminate Hr;
    read_trace; cbn [emissions List.filter]; split; reflexivity.
Qed.

(** X10. [Execute] emits its events only after the push and the route
    mapping succeeded, and the typed event only after the named one was
    delivered: the emissions of any run are an initial part of those of a
    successful run.  When the push fails nothing is mapped and nothing
    emitted; when the mapping fails, [Execute] returns a [MapRouteError]
    with the mapping's output, emits nothing, and the response holds the
    push output only.  When the subscribers of the named event return an
    error, [Execute] returns that error and ends there, the typed event is
    not emitted; when those of the typed event return an error, [Execute]
    returns that error. *)
Theorem Execute_emits_after_push_and_map (p : push.Pusher.t X) (w : push.World.t X)
    (pushOutput : bytes) (pushErr : option error) (x1 : X) :
  let d := push.Pusher.DeploymentInfo p in
  push.ICourier.Push (push.Pusher.Courier p) (temp_name d) (push.Pusher.AppPath p)
    (DeploymentInfo.AppName d) (DeploymentInfo.Instances d) (push.World.ext w) =
    ((pushOutput, pushErr), x1) ->
  let r := push.Execute C_PushFinishedEvent Name p w in
  let tr := made (push.Execute C_PushFinishedEvent Name p) w in
  let pushed_and_mapped := fun (w2 : push.World.t X) =>
    exists w1 : push.World.t X,
      push.pushApplication p (temp_name d) (push.Pusher.AppPath p) w = (None, w1) /\
      (if String.eqb (DeploymentInfo.Domain d) "" then (None, w1)
       else push.mapTempAppToLoadBalancedDomain p (temp_name d) w1) = (None, w2) in
  let data := push.PushEventData.mk (push.Pusher.AppPath p) (push.Pusher.FoundationURL p)
                (temp_name d) d in
  let event := push.PushFinishedEvent.mk (push.Pusher.CFContext p) (push.Pusher.Auth p)
                 (push.Pusher.AppPath p) (push.Pusher.FoundationURL p) (temp_name d)
                 (DeploymentInfo.Data d) (DeploymentInfo.Manifest d)
                 (DeploymentInfo.HealthCheckEndpoint d) in
  emissions tr `prefix_of` PushFinished_events C_PushFinishedEvent p /\
  (pushErr <> None ->
     fst r <> None /\ emissions tr = [] /\
     count_calls is_MapRoute (courier_calls tr) = 0) /\
  (pushErr = None -> DeploymentInfo.Domain d <> "" ->
   forall (out : bytes) (e : error) (x2 : X),
     push.ICourier.MapRoute (push.Pusher.Courier p) (temp_name d)
       (DeploymentInfo.Domain d) (DeploymentInfo.AppName d) x1 = ((out, Some e), x2) ->
     fst r = Some (MapRouteError out) /\ emissions tr = [] /\
     push.World.response (snd r) = push.World.response w +:+ pushOutput) /\
  (forall (w2 : push.World.t X) (e : error) (x : X) (resp : bytes),
     pushed_and_mapped w2 ->
     push.IEventManager.Emit (push.Pusher.EventManager p) C_PushFinishedEvent data
       (push.World.ext w2, push.World.response w2) = (Some e, (x, resp)) ->
     r = (Some e,
          push.World.mk x resp
            (push.World.trace w2 ++
             [push.Log (Debugf "emitting a %s event" [C_PushFinishedEvent]);
              push.Emit C_PushFinishedEvent data]))) /\
  (forall (w2 : push.World.t X) (e : error) (x x' : X) (resp resp' : bytes),
     pushed_and_mapped w2 ->
     push.IEventManager.Emit (push.Pusher.EventManager p) C_PushFinishedEvent data
       (push.World.ext w2, push.World.response w2) = (None, (x, resp)) ->
     push.IEventManager.EmitEvent (push.Pusher.EventManager p) event (x, resp) =
       (Some e, (x', resp')) ->
     r = (Some e,
          push.World.mk x' resp'
            (push.World.trace w2 ++
             [push.Log (Debugf "emitting a %s event" [C_PushFinishedEvent]);
              push.Emit C_PushFinishedEvent data;
              push.Log (Infof "emitted a %s event" [C_PushFinishedEvent]);
              push.EmitEvent event]))).
Proof.
  intros d HPush r tr pushed_and_mapped data event.
  subst d r tr pushed_and_mapped data event.
  unfold PushFinished_events, temp_name in *.
  split; [|split; [|split; [|split]]].
  - push_unfold. unfold push.TemporaryNameSuffix. cbn [push.World.ext].
    rewrite HPush.
    run_all; read_trace; cbn [emissions List.filter];
      first [ apply prefix_nil | eexists; reflexivity
            | exists []; reflexivity ].
  - push_unfold. unfold push.TemporaryNameSuffix. cbn [push.World.ext].
    rewrite HPush.
    intros Hne. destruct pushErr as [e|]; [|congruence].
    run_all; read_trace; cbn [emissions List.filter]; repeat split; discriminate.
  - push_unfold. unfold push.TemporaryNameSuffix. cbn [push.World.ext].
    rewrite HPush.
    intros -> Hd out e x2 HMap. apply String.eqb_neq in Hd. rewrite Hd.
    cbn [negb push.World.ext]. rewrite HMap. read_trace.
    cbn [emissions List.filter]. rewrite append_empty_r. auto.
  - intros w2 e x resp (w1 & HP & HM) HEmit.
    unfold push.Execute, push.emit, push.log, bind, ret.
    unfold push.TemporaryNameSuffix in *. rewrite HP.
    destruct (String.eqb _ "") eqn:Hd; cbn [negb].
    + injection HM as <-. cbn [push.World.ext push.World.response push.World.trace].
      rewrite HEmit. rewrite <- !app_assoc. reflexivity.
    + rewrite HM. cbn [push.World.ext push.World.response push.World.trace].
      rewrite HEmit. rewrite <- !app_assoc. reflexivity.
  - intros w2 e x x' resp resp' (w1 & HP & HM) HEmit HTyped.
    unfold push.Execute, push.emit, push.log, bind, ret.
    unfold push.TemporaryNameSuffix in *. rewrite HP.
    destruct (String.eqb _ "") eqn:Hd; cbn [negb].
    + injection HM as <-. cbn [push.World.ext push.World.response push.World.trace].
      rewrite HEmit. cbn [push.World.ext push.World.response push.World.trace].
      rewrite HTyped. rewrite <- !app_assoc. reflexivity.
    + rewrite HM. cbn [push.World.ext push.World.response push.World.trace].
      rewrite HEmit. cbn [push.World.ext push.World.response push.World.trace].
      rewrite HTyped. rewrite <- !app_assoc. reflexivity.
Qed.

(** X11. The outputs of the courier's unmap, delete, rename and clean-up
    commands never reach the response: [Success], [Undo], [Verify] and
    [Finally] leave the response as it is. *)
Theorem commit_and_rollback_write_nothing (p : push.Pusher.t X) (w : push.World.t X) :
  push.World.response (snd (push.Success ErrorString p w)) = push.World.response w /\
  push.World.response (snd (push.Undo ErrorString p w)) = push.World.response w /\
  push.World.response (snd (push.Verify w)) = push.World.response w /\
  push.World.response (snd (push.Finally p w)) = push.World.response w.
Proof.
  repeat split; push_unfold; run_all; reflexivity.
Qed.

(** X12. With rollback enabled, [Undo] returns the failure of its one
    command: a [DeleteApplicationError] for the temporary application when
    the original exists, a [RenameError] for it otherwise, each with the
    command's output; and no error when the command succeeds. *)
Theorem Undo_reports_its_command (p : push.Pusher.t X) (w : push.World.t X)
    (originalExists : bool) (x1 x2 : X) (out : bytes) (err : option error) :
  let d := push.Pusher.DeploymentInfo p in
  Environment.EnableRollback (push.Pusher.Environment p) = true ->
  push.ICourier.Exists (push.Pusher.Courier p) (DeploymentInfo.AppName d)
    (push.World.ext w) = (originalExists, x1) ->
  (if originalExists
   then push.ICourier.Delete (push.Pusher.Courier p) (temp_name d) x1
   else push.ICourier.Rename (push.Pusher.Courier p) (temp_name d)
          (DeploymentInfo.AppName d) x1) = ((out, err), x2) ->
  fst (push.Undo ErrorString p w) =
    (fun _ => if originalExists
              then DeleteApplicationError (temp_name d) out
              else RenameError (temp_name d) out) <$> err /\
  push.World.ext (snd (push.Undo ErrorString p w)) = x2.
Proof.
  intros d HR HExists HCmd. subst d. unfold temp_name in *.
  push_unfold. unfold push.TemporaryNameSuffix. rewrite HR.
  cbn [negb push.World.ext]. rewrite HExists.
  destruct originalExists; cbn [push.World.ext]; rewrite HCmd;
    destruct err; split; reflexivity.
Qed.

End PushFurther.

(** * Properties of the scripted stopper creator *)

Section StopperCreator.
Context {Action RW : Type}.

(** X13. [Create] panics exactly when the count of earlier calls is not a
    valid index into both scripted slices.  Whether it panics or not, it
    has recorded the call at the end of [Received], and (below the largest
    [int]) the count has gone up by one. *)
Theorem Create_counts_every_call (s : mocks.StopperCreator.t Action RW)
    (d : DeploymentInfo.t) (cf : CFContext.t) (a : Authorization.t) (r : RW)
    (foundationURL appPath : string) :
  let n := mocks.StopperCreator.TimesCalled s in
  let out := mocks.Create d cf a r foundationURL appPath s in
  (fst out = Panicked <->
   (n < 0 \/ Z.of_nat (length (mocks.StopperCreator.Stoppers s)) <= n \/
    Z.of_nat (length (mocks.StopperCreator.Error s)) <= n)%Z) /\
  mocks.StopperCreator.Received (snd out) =
    mocks.StopperCreator.Received s ++ [mocks.receivedCall.mk d r] /\
  mocks.StopperCreator.Stoppers (snd out) = mocks.StopperCreator.Stoppers s /\
  mocks.StopperCreator.Error (snd out) = mocks.StopperCreator.Error s /\
  ((- 2 ^ 63 <= n < 2 ^ 63 - 1)%Z ->
   mocks.StopperCreator.TimesCalled (snd out) = (n + 1)%Z).
Proof.
  cbv zeta. unfold mocks.Create, mocks.index, mocks.wrap_int.
  cbn [fst snd mocks.StopperCreator.TimesCalled mocks.StopperCreator.Received
       mocks.StopperCreator.Stoppers mocks.StopperCreator.Error].
  repeat split; try reflexivity.
  - destruct (Z.ltb_spec (mocks.StopperCreator.TimesCalled s) 0) as [Hneg|Hpos];
      [intros _; lia|].
    destruct (mocks.StopperCreator.Stoppers s !! _) as [st|] eqn:Hs.
    + destruct (mocks.StopperCreator.Error s !! _) as [e|] eqn:He; [discriminate|].
      intros _. apply lookup_ge_None in He. lia.
    + intros _. apply lookup_ge_None in Hs. lia.
  - destruct (Z.ltb_spec (mocks.StopperCreator.TimesCalled s) 0) as [Hneg|Hpos];
      [reflexivity|].
    intros [Hn|[Hn|Hn]]; [lia| |].
    + rewrite (proj2 (lookup_ge_None _ _)) by lia. reflexivity.
    + destruct (mocks.StopperCreator.Stoppers s !! _); [|reflexivity].
      rewrite (proj2 (lookup_ge_None _ _)) by lia. reflexivity.
  - intros Hn. rewrite Z.mod_small by lia. lia.
Qed.

(** Calls of a fresh creator, one after the other. *)
Lemma Create_all_from (calls : list (DeploymentInfo.t * RW))
    (s : mocks.StopperCreator.t Action RW) (n : nat) :
  mocks.StopperCreator.TimesCalled s = Z.of_nat n ->
  n + length calls <= length (mocks.StopperCreator.Stoppers s) ->
  n + length calls <= length (mocks.StopperCreator.Error s) ->
  (Z.of_nat (n + length calls) < 2 ^ 63)%Z ->
  let out := Create_all calls s in
  fst out = zip_with (fun st e => Returned (st, e))
              (take (length calls) (drop n (mocks.StopperCreator.Stoppers s)))
              (take (length calls) (drop n (mocks.StopperCreator.Error s))) /\
  mocks.StopperCreator.TimesCalled (snd out) = Z.of_nat (n + length calls) /\
  mocks.StopperCreator.Received (snd out) =
    mocks.StopperCreator.Received s
      ++ map (fun c => mocks.receivedCall.mk (fst c) (snd c)) calls /\
  mocks.StopperCreator.Stoppers (snd out) = mocks.StopperCreator.Stoppers s /\
  mocks.StopperCreator.Error (snd out) = mocks.StopperCreator.Error s.
Proof.
  revert s n. induction calls as [|[d r] calls IH]; intros s n Hn Hs He Hmax.
  - cbn. rewrite Nat.add_0_r, app_nil_r. auto.
  - cbn [length] in *. cbn [Create_all]. unfold bind, ret.
    destruct (mocks.Create d _ _ r "" "" s) as [o s1] eqn:HC.
    assert (HS : mocks.StopperCreator.Stoppers s1 = mocks.StopperCreator.Stoppers s /\
                 mocks.StopperCreator.Error s1 = mocks.StopperCreator.Error s /\
                 mocks.StopperCreator.Received s1 =
                   mocks.StopperCreator.Received s ++ [mocks.receivedCall.mk d r] /\
                 mocks.StopperCreator.TimesCalled s1 = Z.of_nat (S n)).
    { unfold mocks.Create in HC. injection HC as _ <-.
      cbn [mocks.StopperCreator.TimesCalled mocks.StopperCreator.Received
           mocks.StopperCreator.Stoppers mocks.StopperCreator.Error].
      repeat split. unfold mocks.wrap_int. rewrite Hn, Z.mod_small by lia. lia. }
    destruct HS as (HSt & HEr & HRe & HTc).
    assert (Ho : exists st e,
               mocks.StopperCreator.Stoppers s !! n = Some st /\
               mocks.StopperCreator.Error s !! n = Some e /\ o = Returned (st, e)).
    { destruct (lookup_lt_is_Some_2 (mocks.StopperCreator.Stoppers s) n) as [st Hst];
        [lia|].
      destruct (lookup_lt_is_Some_2 (mocks.StopperCreator.Error s) n) as [e Hee];
        [lia|].
      exists st, e. repeat split; [exact Hst|exact Hee|].
      unfold mocks.Create in HC. injection HC as <- _.
      unfold mocks.index.
      cbn [mocks.StopperCreator.TimesCalled mocks.StopperCreator.Stoppers
           mocks.StopperCreator.Error].
      rewrite Hn. destruct (Z.ltb_spec (Z.of_nat n) 0) as [?|_]; [lia|].
      rewrite Nat2Z.id, Hst, Hee. reflexivity. }
    destruct Ho as (st & e & Hst & Hee & ->).
    destruct (Create_all calls s1) as [os s2] eqn:HA.
    specialize (IH s1 (S n) HTc).
    rewrite HA, HSt, HEr, HRe in IH. cbn [fst snd] in IH.
    destruct IH as (IH1 & IH2 & IH3 & IH4 & IH5); [lia|lia|lia|].
    cbn [fst snd]. repeat split.
    + rewrite (drop_S _ st n Hst), (drop_S _ e n Hee). cbn [take zip_with].
      now rewrite IH1.
    + rewrite IH2. f_equal. lia.
    + rewrite IH3, <- app_assoc. reflexivity.
    + exact IH4.
    + exact IH5.
Qed.

(** X14. A creator that has not been called yet and is scripted for at
    least as many calls as it receives returns the scripted stoppers paired
    with the scripted errors, in order; afterwards its count is the number
    of calls and [Received] lists them in order. *)
Theorem Create_replays_the_script (calls : list (DeploymentInfo.t * RW))
    (stoppers : list Action) (errors : list (option error)) :
  length calls <= length stoppers ->
  length calls <= length errors ->
  (Z.of_nat (length calls) < 2 ^ 63)%Z ->
  let out := Create_all calls (mocks.StopperCreator.mk 0 [] stoppers errors) in
  fst out = zip_with (fun st e => Returned (st, e))
              (take (length calls) stoppers) (take (length calls) errors) /\
  mocks.StopperCreator.TimesCalled (snd out) = Z.of_nat (length calls) /\
  mocks.StopperCreator.Received (snd out) =
    map (fun c => mocks.receivedCall.mk (fst c) (snd c)) calls.
Proof.
  intros Hs He Hmax.
  destruct (Create_all_from calls (mocks.StopperCreator.mk 0 [] stoppers errors) 0)
    as (H1 & H2 & H3 & _); try assumption; try reflexivity.
  cbv zeta. rewrite H1, H2, H3. repeat split.
Qed.

End StopperCreator.

(** ** Concrete runs *)

Lemma unknown_environment_witness :
  stop.StopDeployment demo.ErrorString demo.Name (demo.calm true) demo2.stranger None
    demo.world =
  (Returned (stop.DeployResponse.mk 500 None (Some (EnvironmentNotFoundError "staging"))),
   stop.World.mk tt ("" +:+ Sprintln (demo.ErrorString (EnvironmentNotFoundError "staging")))
     ([] ++ [stop.Log (Debugf "Preparing to stop %s with UUID %s" ["app"; "u1"])])).
Proof.
  exact (unknown_environment demo.ErrorString demo.Name (demo.calm true) demo2.stranger
           None demo.world eq_refl).
Defined.

Lemma resolveAuthorization_fails_iff_witness :
  fst (stop.resolveAuthorization (demo.calm true) (Authorization.mk "" "")
         (demo.environment true) demo.world) =
    (Authorization.zero, Some BasicAuthError) /\
  fst (stop.resolveAuthorization (demo.calm true) (Authorization.mk "alice" "pw")
         (demo.environment true) demo.world) = (Authorization.mk "alice" "pw", None).
Proof.
  split.
  - apply (proj1 (proj2 (resolveAuthorization_fails_iff (demo.calm true)
                           (Authorization.mk "" "") (demo.environment true) demo.world))).
    discriminate.
  - apply (proj2 (proj2 (proj2 (resolveAuthorization_fails_iff (demo.calm true)
                                  (Authorization.mk "alice" "pw") (demo.environment true)
                                  demo.world)))).
    intros [Hu _]. discriminate Hu.
Defined.

Lemma deployer_response_passes_through_witness :
  deployer_calls
    (stop_made (stop.StopDeployment demo.ErrorString demo.Name demo2.failing
                  (demo.deployment "" "") None) demo.world) =
    [stop.StopManager
       (stop.DeployEventData.mk
          (stop_deploymentInfo (stop.DeploymentLogger.mk "u1")
             (CFContext.mk "prod" "org" "space" "app") (demo.environment false)
             demo.defaults ∅));
     stop.Deploy
       (stop_deploymentInfo (stop.DeploymentLogger.mk "u1")
          (CFContext.mk "prod" "org" "space" "app") (demo.environment false)
          demo.defaults ∅)
       (demo.environment false)] /\
  fst (stop.StopDeployment demo.ErrorString demo.Name demo2.failing
         (demo.deployment "" "") None demo.world) =
    Returned (stop.DeployResponse.mk 502 None (Some (Matched demo.oom))).
Proof.
  exact (deployer_response_passes_through demo.ErrorString demo.Name demo2.failing
           (demo.deployment "" "") None demo.world (demo.environment false)
           demo.defaults tt tt tt "" "stopping app" tt demo2.failed
           eq_refl eq_refl eq_refl eq_refl eq_refl).
Defined.

Lemma outcome_event_matches_response_witness :
  events (stop_made (stop.StopDeployment demo.ErrorString demo.Name demo2.failing
                       (demo.deployment "" "") None) demo.world) =
    [stop.StopStartedEvent (demo.envelope false demo.defaults);
     stop.StopFailureEvent (demo.envelope false demo.defaults) (Matched demo.oom);
     stop.StopFinishedEvent (demo.envelope false demo.defaults)].
Proof.
  exact (outcome_event_matches_response demo.ErrorString demo.Name demo2.failing
           (demo.deployment "" "") None demo.world (demo.environment false)
           demo.defaults
           (stop.DeployResponse.mk 502 None (Some (Matched demo.oom)))
           eq_refl eq_refl eq_refl).
Defined.

Lemma nil_deployer_response_panics_witness :
  fst (stop.StopDeployment demo.ErrorString demo.Name demo2.nil_deployer
         (demo.deployment "" "") None demo.world) = Panicked /\
  events (stop_made (stop.StopDeployment demo.ErrorString demo.Name demo2.nil_deployer
                       (demo.deployment "" "") None) demo.world) =
    [stop.StopStartedEvent (demo.envelope false demo.defaults);
     stop.StopSuccessEvent (demo.envelope false demo.defaults);
     stop.StopFinishedEvent (demo.envelope false demo.defaults)].
Proof.
  exact (nil_deployer_response_panics demo.ErrorString demo.Name demo2.nil_deployer
           (demo.deployment "" "") None demo.world (demo.environment false)
           demo.defaults tt tt tt "" "stopping app" tt
           eq_refl eq_refl eq_refl eq_refl eq_refl).
Defined.

Lemma printErrors_keeps_transcript_witness :
  stop.World.response
    (snd (stop.printErrors (demo2.finder []) (Opaque "stop failed") demo2.transcript)) =
  "pushing... out of memory".
Proof.
  exact (proj1 (proj2 (proj2 (printErrors_keeps_transcript (demo2.finder [])
                                (Opaque "stop failed") demo2.transcript)))
           eq_refl).
Defined.

(** A found error without detail line makes [printErrors] panic. *)
Example printErrors_bare_error :
  fst (fst (stop.printErrors (demo2.finder [demo.oom; demo2.bare]) (Opaque "stop failed")
              demo2.transcript)) = Panicked.
Proof. reflexivity. Qed.

Lemma Initially_writes_login_output_witness :
  fst (push.Initially (scripted.pusher "" true) demo2.login_refused) =
    Some (LoginError "https://api.f1" "bad credentials") /\
  push.World.response (snd (push.Initially (scripted.pusher "" true) demo2.login_refused)) =
    "" +:+ "bad credentials" /\
  push.World.ext (snd (push.Initially (scripted.pusher "" true) demo2.login_refused)) = [] /\
  courier_made (push.Initially (scripted.pusher "" true)) demo2.login_refused =
    [push.CLogin "https://api.f1" "user" "secret" "org" "space" false].
Proof.
  exact (Initially_writes_login_output (scripted.pusher "" true) demo2.login_refused
           "bad credentials" (Some (Opaque "exit status 1")) [] eq_refl).
Defined.

Lemma Execute_success_sequence_witness :
  courier_made (push.Execute "push.finished" scripted.Name
                  (scripted.pusher "example.com" true)) scripted.push_succeeds =
    [push.CPush "app-new-build-u1" "/tmp/app" "app" 2;
     push.CMapRoute "app-new-build-u1" "example.com" "app"] /\
  emissions (made (push.Execute "push.finished" scripted.Name
                     (scripted.pusher "example.com" true)) scripted.push_succeeds) =
    PushFinished_events "push.finished" (scripted.pusher "example.com" true).
Proof.
  exact (Execute_success_sequence "push.finished" scripted.Name
           (scripted.pusher "example.com" true) scripted.push_succeeds eq_refl).
Defined.

Lemma Execute_emits_after_push_and_map_witness :
  (fst (push.Execute "push.finished" scripted.Name (scripted.pusher "example.com" true)
          demo2.map_fails) = Some (MapRouteError "no such domain") /\
   emissions (made (push.Execute "push.finished" scripted.Name
                      (scripted.pusher "example.com" true)) demo2.map_fails) = [] /\
   push.World.response
     (snd (push.Execute "push.finished" scripted.Name (scripted.pusher "example.com" true)
             demo2.map_fails)) = "" +:+ "pushed") /\
  fst (push.Execute "push.finished" scripted.Name demo2.pusher_refused
         scripted.push_succeeds) = Some (Opaque "listener failed") /\
  emissions (made (push.Execute "push.finished" scripted.Name demo2.pusher_refused)
               scripted.push_succeeds) =
    [push.Emit "push.finished"
       (push.PushEventData.mk "/tmp/app" "https://api.f1" "app-new-build-u1"
          (scripted.info "example.com"))].
Proof.
  split.
  - apply (proj1 (proj2 (proj2 (Execute_emits_after_push_and_map "push.finished"
                           scripted.Name (scripted.pusher "example.com" true)
                           demo2.map_fails "pushed" None
                           [scripted.failed "no such domain" "exit status 1"] eq_refl)))
             eq_refl) with (e := Opaque "exit status 1") (x2 := []).
    + discriminate.
    + reflexivity.
  - assert (Hready :
      exists w1 : push.World.t (list scripted.Reply),
        push.pushApplication demo2.pusher_refused
          (temp_name (push.Pusher.DeploymentInfo demo2.pusher_refused))
          (push.Pusher.AppPath demo2.pusher_refused) scripted.push_succeeds = (None, w1) /\
        (if String.eqb (DeploymentInfo.Domain (push.Pusher.DeploymentInfo
                                                 demo2.pusher_refused)) ""
         then (None, w1)
         else push.mapTempAppToLoadBalancedDomain demo2.pusher_refused
                (temp_name (push.Pusher.DeploymentInfo demo2.pusher_refused)) w1) =
        (None,
         snd (push.mapTempAppToLoadBalancedDomain demo2.pusher_refused "app-new-build-u1"
                (snd (push.pushApplication demo2.pusher_refused "app-new-build-u1"
                        "/tmp/app" scripted.push_succeeds))))).
    { eexists. split; reflexivity. }
    pose proof (proj1 (proj2 (proj2 (proj2 (Execute_emits_after_push_and_map
                  "push.finished" scripted.Name demo2.pusher_refused
                  scripted.push_succeeds "pushed" None [scripted.ok "mapped"] eq_refl))))
                  _ (Opaque "listener failed") [] _ Hready eq_refl) as HExec.
    unfold made. rewrite HExec. split; reflexivity.
Defined.

Lemma Undo_reports_its_command_witness :
  fst (push.Undo scripted.ErrorString (scripted.pusher "" true) demo2.delete_fails) =
    Some (DeleteApplicationError "app-new-build-u1" "not found") /\
  push.World.ext
    (snd (push.Undo scripted.ErrorString (scripted.pusher "" true) demo2.delete_fails)) = [].
Proof.
  exact (Undo_reports_its_command scripted.ErrorString (scripted.pusher "" true)
           demo2.delete_fails true
           [scripted.failed "not found" "exit status 1"] [] "not found"
           (Some (Opaque "exit status 1")) eq_refl eq_refl eq_refl).
Defined.

Lemma Create_counts_every_call_witness :
  mocks.StopperCreator.TimesCalled
    (snd (mocks.Create (scripted.info "") (CFContext.mk "prod" "org" "space" "app")
            Authorization.zero 7 "https://api.f1" "/tmp/app" demo2.creator)) = 1%Z.
Proof.
  apply (proj2 (proj2 (proj2 (proj2
           (Create_counts_every_call demo2.creator (scripted.info "")
              (CFContext.mk "prod" "org" "space" "app") Authorization.zero 7
              "https://api.f1" "/tmp/app"))))).
  split; [discriminate | reflexivity].
Defined.

Lemma Create_replays_the_script_witness :
  fst (Create_all demo2.two_calls demo2.creator) =
    [Returned ("stopper A", None); Returned ("stopper B", Some (Opaque "no stopper"))] /\
  mocks.StopperCreator.TimesCalled (snd (Create_all demo2.two_calls demo2.creator)) = 2%Z /\
  mocks.StopperCreator.Received (snd (Create_all demo2.two_calls demo2.creator)) =
    [mocks.receivedCall.mk (scripted.info "") 1;
     mocks.receivedCall.mk (scripted.info "example.com") 2].
Proof.
  apply (Create_replays_the_script demo2.two_calls ["stopper A"; "stopper B"]
           [None; Some (Opaque "no stopper")]).
  - apply le_n.
  - apply le_n.
  - reflexivity.
Defined.
